(** * worker-wp-github-release-api: a shallow embedding of the Worker

    The repository is one Cloudflare Worker script kept in three revisions:

    - the query-based revision ([?vendor=..&package=..&basename=..]),
      module [QueryRev];
    - the path-based revision ([/plugins/:vendor/:package[/download]]),
      module [PathRev];
    - the current revision, with an optional [:version] segment and the
      helpers [getLatestRelease] and [getRelease], module [Current].

    [getStatusText], [getResponse], [getErrorResponse] and [getFileHeaders]
    are textually the same in the three revisions and are embedded once.
    The remote end and the edge cache are the two collaborators of a
    request ([Http.Env]); [handleRequest] is a function of them and of the
    request, and an [await] that rejects is a [Throw].

    The definitions come first; the facts follow in [JsFacts],
    [HeadersFacts], [QueryFacts], [BasenameFacts], [ResolverFacts] and
    [HandlerFacts].

    JavaScript strings are modelled by [string]; a character stands for a
    UTF-16 code unit below 256, so the line terminators are LF and CR and
    the white space removed by [trim] is TAB, LF, VT, FF, CR, SPACE and
    NBSP.  JSON numbers are modelled by integers: the script only tests
    them for truthiness and interpolates them into strings. *)

From Stdlib Require Import ZArith Lia Ascii DecimalString.
From stdpp Require Import base strings list gmap.

Local Open Scope Z_scope.

(** ** JavaScript values and primitives *)

Module Js.

(** Values: what [JSON.parse] produces, plus [undefined]. An object keeps
    its properties in insertion order. *)
#[warnings="-register-all"]
Inductive value : Type :=
| VUndefined
| VNull
| VBool (b : bool)
| VNum (n : Z)
| VStr (s : string)
| VArr (xs : list value)
| VObj (kv : list (string * value)).

(** What a [throw], a rejected promise or a failing built-in raises: an
    [Error] object (with its [name] and [message]) or any thrown value. *)
Inductive exn : Type :=
| ErrorObj (name message : string)
| Thrown (v : value).

Inductive completion (A : Type) : Type :=
| Normal (a : A)
| Throw (e : exn).
Arguments Normal {A} a.
Arguments Throw {A} e.

Definition bind {A B} (c : completion A) (k : A -> completion B) : completion B :=
  match c with
  | Normal a => k a
  | Throw e => Throw e
  end.

Definition TypeError {A} (message : string) : completion A :=
  Throw (ErrorObj "TypeError" message).

(** [ToBoolean] *)
Definition truthy (v : value) : bool :=
  match v with
  | VUndefined | VNull => false
  | VBool b => b
  | VNum n => negb (n =? 0)
  | VStr s => negb (bool_decide (s = ""))
  | VArr _ | VObj _ => true
  end.

(** [a || b] *)
Definition or_else (a b : value) : value := if truthy a then a else b.

(** [v === 's'] for a string literal ['s'] *)
Definition is_str (v : value) (s : string) : bool :=
  match v with
  | VStr s' => bool_decide (s' = s)
  | _ => false
  end.

Fixpoint assoc {A} (k : string) (kv : list (string * A)) : option A :=
  match kv with
  | [] => None
  | (k', v) :: kv' => if bool_decide (k' = k) then Some v else assoc k kv'
  end.

Definition strlen (s : string) : Z := Z.of_nat (String.length s).

(** [v.k] for the property names the script reads ([assets], [length],
    [tag_name], [published_at], [browser_download_url], [message]); none
    of them is inherited from a prototype, apart from [length]. *)
Definition getProp (v : value) (k : string) : completion value :=
  match v with
  | VUndefined =>
      TypeError ("Cannot read properties of undefined (reading '" +:+ k +:+ "')")
  | VNull =>
      TypeError ("Cannot read properties of null (reading '" +:+ k +:+ "')")
  | VObj kv => Normal (default VUndefined (assoc k kv))
  | VArr xs =>
      Normal (if bool_decide (k = "length") then VNum (Z.of_nat (length xs)) else VUndefined)
  | VStr s =>
      Normal (if bool_decide (k = "length") then VNum (strlen s) else VUndefined)
  | VBool _ | VNum _ => Normal VUndefined
  end.

(** [v[0]] *)
Definition getFirst (v : value) : completion value :=
  match v with
  | VUndefined => TypeError "Cannot read properties of undefined (reading '0')"
  | VNull => TypeError "Cannot read properties of null (reading '0')"
  | VObj kv => Normal (default VUndefined (assoc "0" kv))
  | VArr xs => Normal (default VUndefined (head xs))
  | VStr s =>
      Normal (match s with String c _ => VStr (String c "") | _ => VUndefined end)
  | VBool _ | VNum _ => Normal VUndefined
  end.

Definition string_of_Z (n : Z) : string :=
  if n =? 0 then "0" else NilEmpty.string_of_int (Z.to_int n).

Fixpoint join (sep : string) (ws : list string) : string :=
  match ws with
  | [] => ""
  | [w] => w
  | w :: ws' => w +:+ sep +:+ join sep ws'
  end.

(** [ToString], as a template literal [`${v}`] applies it. *)
Fixpoint toString (v : value) : string :=
  match v with
  | VUndefined => "undefined"
  | VNull => "null"
  | VBool true => "true"
  | VBool false => "false"
  | VNum n => string_of_Z n
  | VStr s => s
  | VArr xs =>
      join "," (map (fun x => match x with
                              | VUndefined | VNull => ""
                              | _ => toString x
                              end) xs)
  | VObj _ => "[object Object]"
  end.

(** [JSON.stringify] seen as a map on documents: a property whose value is
    [undefined] is left out, an [undefined] array element becomes [null].
    The text layout (two-space indentation) is not modelled. *)
Fixpoint stringify (v : value) : value :=
  match v with
  | VArr xs =>
      VArr (map (fun x => match x with
                          | VUndefined => VNull
                          | _ => stringify x
                          end) xs)
  | VObj kv =>
      VObj ((fix props (kv : list (string * value)) : list (string * value) :=
               match kv with
               | [] => []
               | (k, VUndefined) :: kv' => props kv'
               | (k, x) :: kv' => (k, stringify x) :: props kv'
               end) kv)
  | _ => v
  end.

(** *** Strings *)

(** [s.split(sep)] for a one-character separator. *)
Fixpoint split (sep : ascii) (s : string) : list string :=
  match s with
  | "" => [""]
  | String c s' =>
      if bool_decide (c = sep) then "" :: split sep s'
      else match split sep s' with
           | [] => [String c ""]
           | w :: ws => String c w :: ws
           end
  end.

(** [s.lastIndexOf(c)], [-1] when [c] does not occur. *)
Fixpoint lastIndexOf (s : string) (c : ascii) : Z :=
  match s with
  | "" => -1
  | String a s' =>
      let r := lastIndexOf s' c in
      if 0 <=? r then r + 1
      else if bool_decide (a = c) then 0 else -1
  end.

Fixpoint drop (n : nat) (s : string) : string :=
  match n, s with
  | O, _ => s
  | S n', String _ s' => drop n' s'
  | S _, "" => ""
  end.

(** [s.substring(start)] *)
Definition substring (s : string) (start : Z) : string :=
  drop (Z.to_nat (Z.max 0 start)) s.

(** [s.slice(0, -1)] *)
Fixpoint slice_0_m1 (s : string) : string :=
  match s with
  | "" => ""
  | String c "" => ""
  | String c s' => String c (slice_0_m1 s')
  end.

(** The characters [.] does not match in a regular expression. *)
Definition is_line_terminator (c : ascii) : bool :=
  match c with
  | "010" | "013" => true
  | _ => false
  end%char.

(** The characters [trim] removes. *)
Definition is_white_space (c : ascii) : bool :=
  match c with
  | "009" | "010" | "011" | "012" | "013" | " " | "160" => true
  | _ => false
  end%char.

Fixpoint trimStart (s : string) : string :=
  match s with
  | String c s' => if is_white_space c then trimStart s' else s
  | "" => ""
  end.

Fixpoint trimEnd (s : string) : string :=
  match s with
  | String c s' =>
      match trimEnd s' with
      | "" => if is_white_space c then "" else String c ""
      | r => String c r
      end
  | "" => ""
  end.

Definition trim (s : string) : string := trimEnd (trimStart s).

(** [c] occurs in [s]. *)
Fixpoint mem (c : ascii) (s : string) : bool :=
  match s with
  | "" => false
  | String a s' => bool_decide (a = c) || mem c s'
  end.

Definition ends_with (suffix s : string) : Prop :=
  exists before, s = before +:+ suffix.

Definition starts_with_white_space (s : string) : bool :=
  match s with
  | String c _ => is_white_space c
  | "" => false
  end.

Fixpoint ends_with_white_space (s : string) : bool :=
  match s with
  | "" => false
  | String c "" => is_white_space c
  | String _ s' => ends_with_white_space s'
  end.

(** A string [trim] would leave as it is. *)
Definition trimmed (s : string) : Prop :=
  starts_with_white_space s = false /\ ends_with_white_space s = false.

Fixpoint has_line_terminator (s : string) : bool :=
  match s with
  | "" => false
  | String c s' => is_line_terminator c || has_line_terminator s'
  end.

End Js.

Notation "'let*' x ':=' c 'in' k" := (Js.bind c (fun x => k))
  (at level 10, x pattern, c at level 100, k at level 200).

(** ** Responses and the edge cache *)

Module Http.
Import Js.

Inductive Body : Type :=
| BJson (doc : value)   (* the text [JSON.stringify(doc, null, 2)] *)
| BText (text : string)
| BNone.

Record Response : Type := mkResponse {
  status : Z;
  statusText : string;
  headers : list (string * string);
  body : Body
}.

(** What the remote end answered to a [fetch]: [json] is the result of
    [response.json()] ([None] when the body is not JSON, which rejects with
    a [SyntaxError]) and [text] the result of [response.text()]. *)
Record Upstream : Type := mkUpstream {
  up_status : Z;
  up_json : option value;
  up_text : string
}.

Definition json (r : Upstream) : completion value :=
  match up_json r with
  | Some v => Normal v
  | None => Throw (ErrorObj "SyntaxError" "Unexpected token in JSON")
  end.

Definition null_body_status (code : Z) : bool :=
  bool_decide (code ∈ [101; 103; 204; 205; 304]).

Definition has_body (b : Body) : bool :=
  match b with
  | BNone => false
  | _ => true
  end.

(** [new Response(body, {status, statusText, headers})]: the constructor
    refuses a status outside 200..599, and a body with a null-body status. *)
Definition newResponse (b : Body) (code : Z) (text : string)
    (hs : list (string * string)) : completion Response :=
  if (code <? 200) || (599 <? code) then
    Throw (ErrorObj "RangeError" "Responses may only be constructed with status codes in the range 200 to 599, inclusive.")
  else if null_body_status code && has_body b then
    Throw (ErrorObj "TypeError" "Response with null body status cannot have body")
  else Normal (mkResponse code text hs b).

Definition getStatusText (code : Z) : string :=
  match code with
  | 400 => "Bad Request"
  | 404 => "Not Found"
  | _ => "OK"
  end.

Definition getResponse (payload : value) (code : Z) : completion Response :=
  newResponse
    (match payload with VUndefined => BNone | _ => BJson (stringify payload) end)
    code (getStatusText code) [("Content-Type", "application/json")].

Definition getErrorResponse (message : value) (statusCode : Z) : completion Response :=
  getResponse (VObj [("status", VStr "error"); ("message", message)]) statusCode.

(** [v?.k] *)
Definition optProp (v : value) (k : string) : value :=
  match v with
  | VUndefined | VNull => VUndefined
  | _ => match getProp v k with
         | Normal x => x
         | Throw _ => VUndefined
         end
  end.

Definition redirect_status (code : Z) : bool :=
  bool_decide (code ∈ [301; 302; 303; 307; 308]).

(** [Response.redirect(url, code)]: [url] is converted to a string and
    parsed, [parse] being the URL parser of the platform, which gives the
    serialised URL, or nothing when the string is not an absolute URL (a
    Worker has no base URL to resolve it against). A string that does not
    parse is a [TypeError], a status that is no redirect a [RangeError];
    otherwise the response has the serialised URL for [Location] and no
    body. *)
Definition redirect (parse : string -> option string) (url : value) (code : Z)
    : completion Response :=
  match parse (toString url) with
  | None => TypeError "Invalid URL string."
  | Some location =>
      if redirect_status code
      then Normal (mkResponse code "" [("Location", location)] BNone)
      else Throw (ErrorObj "RangeError" "Invalid redirect status code.")
  end.

(** [payload.download], [payload] being the object [getPayload] built. *)
Definition download (payload : value) : value := optProp payload "download".

(** [response.headers.append(name, v)] *)
Definition append_header (name v : string) (r : Response) : Response :=
  mkResponse (status r) (statusText r) (headers r ++ [(name, v)]) (body r).

(** The incoming request, through what [new URL(request.url)] exposes. *)
Record Request : Type := mkRequest {
  href : string;                          (* [url.toString()] *)
  pathname : string;                      (* [url.pathname] *)
  searchParams : list (string * string)   (* [url.searchParams], decoded *)
}.

(** [url.searchParams.get(name)]: the first value, or [null]. *)
Definition get (name : string) (r : Request) : value :=
  match assoc name (searchParams r) with
  | Some v => VStr v
  | None => VNull
  end.

(** [url.searchParams.has(name)] *)
Definition has (name : string) (r : Request) : bool :=
  bool_decide (is_Some (assoc name (searchParams r))).

(** The collaborators of one request: the remote end behind [fetch]
    (a rejected [fetch] is a [Throw]), the edge cache [caches.default],
    keyed by the request URL, and the URL parser of the platform, which
    [Response.redirect] calls. *)
Record Env : Type := mkEnv {
  fetch : string -> completion Upstream;
  cache : gmap string Response;
  parse_url : string -> option string
}.

(** What [handleRequest] hands back: the response, and the cache writes
    passed to [event.waitUntil], which run after the response is sent. *)
Record Outcome : Type := mkOutcome {
  response : Response;
  waitUntil : list (string * Response)
}.

Definition reply (r : Response) : Outcome := mkOutcome r [].

(** [return getResponse(..)] and the like: nothing is left to [waitUntil]. *)
Definition replying (c : completion Response) : completion Outcome :=
  let* r := c in Normal (reply r).

Definition isArray (v : value) : bool :=
  match v with
  | VArr _ => true
  | _ => false
  end.

Definition elements (v : value) : list value :=
  match v with
  | VArr xs => xs
  | _ => []
  end.

(** [!releases || !Array.isArray(releases) || !releases.length] *)
Definition no_releases (releases : value) : bool :=
  negb (truthy releases) || negb (isArray releases)
  || negb (truthy (VNum (Z.of_nat (length (elements releases))))).

(** [url.pathname.split('/').filter((value) => !!value)] *)
Definition path_segments (r : Request) : list string :=
  filter (fun seg => seg ≠ "") (split "/" (pathname r)).

(** [segments[i]] *)
Definition at_index (segments : list string) (i : nat) : value :=
  default VUndefined (VStr <$> segments !! i).

(** [segments.shift()]: the first element (or [undefined]) and what is left. *)
Definition shift (segments : list string) : value * list string :=
  match segments with
  | [] => (VUndefined, [])
  | seg :: rest => (VStr seg, rest)
  end.

(** [segments.pop()], for what is left. *)
Definition pop (segments : list string) : list string := removelast segments.

(** [e.message] in a [catch (e)] *)
Definition message (e : exn) : completion value :=
  match e with
  | ErrorObj _ m => Normal (VStr m)
  | Thrown v => getProp v "message"
  end.

(** The asset list of a release object, when it has one. *)
Definition asset_list (release : value) : option (list value) :=
  match getProp release "assets" with
  | Normal (VArr assets) => Some assets
  | _ => None
  end.

(** A release is usable when its asset list is not empty. *)
Definition usable (release : value) : Prop :=
  exists asset rest, asset_list release = Some (asset :: rest).

Definition unusable (release : value) : Prop := asset_list release = Some [].

Definition api_releases (vendor package : value) : string :=
  "https://api.github.com/repos/" +:+ toString vendor +:+ "/"
  +:+ toString package +:+ "/releases".

Definition raw_file (vendor package tag_name file : value) : string :=
  "https://raw.githubusercontent.com/" +:+ toString vendor +:+ "/"
  +:+ toString package +:+ "/" +:+ toString tag_name +:+ "/" +:+ toString file.

(** [err.stack], cut after its first line (the trace that follows depends
    on the engine). The script rejects with [Error] objects only; reading
    [stack] on a thrown [null] would fail in its turn, which is not
    modelled. *)
Definition stack (e : exn) : Body :=
  match e with
  | ErrorObj name m => BText (name +:+ ": " +:+ m)
  | Thrown (VObj kv) =>
      match assoc "stack" kv with
      | Some (VStr s) => BText s
      | Some VUndefined | Some VNull | None => BNone
      | Some v => BText (toString v)
      end
  | Thrown _ => BNone
  end.

(** The [fetch] event listener:
    [event.respondWith(handleRequest(event).catch((err) => new Response(err.stack, {status: 500})))] *)
Definition respondWith (handled : completion Outcome) : Outcome :=
  match handled with
  | Normal o => o
  | Throw e =>
      reply (mkResponse 500 ""
               (match stack e with
                | BText _ => [("content-type", "text/plain;charset=UTF-8")]
                | _ => []
                end)
               (stack e))
  end.

End Http.

(** ** File headers *)

Module Headers.
Import Js.

Definition headers : list string :=
  [ "Author"; "Author URI"; "Description"; "Domain Path"; "License";
    "License URI"; "Plugin Name"; "Plugin URI"; "Requires at least";
    "Requires PHP"; "Tested up to"; "Text Domain"; "Theme Name";
    "Theme URI"; "Version" ].

(** What the capture group (a greedy dot-star) takes at the start of [s]:
    the longest run of characters that are not line terminators. *)
Fixpoint dot_star (s : string) : string :=
  match s with
  | String c s' => if is_line_terminator c then "" else String c (dot_star s')
  | "" => ""
  end.

(** Group 1 of [regex.exec(text)] where [regex] is the fresh expression
    (flags [gm], [lastIndex] 0) made of the literal [lit], which has no
    metacharacter, followed by the capture group: the leftmost occurrence
    of [lit] wins; [None] is JavaScript's [null]. The pattern has no
    anchor, so the [m] flag changes nothing. *)
Fixpoint exec (lit text : string) : option string :=
  if String.prefix lit text then Some (dot_star (drop (String.length lit) text))
  else match text with
       | "" => None
       | String _ text' => exec lit text'
       end.

Definition getFileHeaders (fileContents : string) : gmap string string :=
  foldl (fun fileHeaders header =>
           match exec (header +:+ ":") fileContents with
           | Some m1 => <[header := trim m1]> fileHeaders
           | None => fileHeaders
           end) ∅ headers.

(** [fileHeaders[name]] *)
Definition header (fileHeaders : gmap string string) (name : string) : value :=
  match fileHeaders !! name with
  | Some v => VStr v
  | None => VUndefined
  end.

(** The lines of a text, cut at each line terminator. *)
Fixpoint lines (text : string) : list string :=
  match text with
  | "" => [""]
  | String c text' =>
      if is_line_terminator c then "" :: lines text'
      else match lines text' with
           | [] => [String c ""]
           | l :: ls => String c l :: ls
           end
  end.

(** *** The header parser as the specification words it

    "For each known header name, search the text line by line for a line
    of the form [Name:] followed by the rest of the line; take the first
    match; trim surrounding whitespace; absent header: key omitted." *)

(** A line of the form [lit] followed by the rest of the line: the line
    begins with [lit], and what follows is the rest. *)
Definition line_of_form (lit line : string) : option string :=
  if String.prefix lit line then Some (drop (String.length lit) line) else None.

(** The rest of the first line of that form. *)
Fixpoint first_line_of_form (lit : string) (ls : list string) : option string :=
  match ls with
  | [] => None
  | l :: ls' =>
      match line_of_form lit l with
      | Some r => Some r
      | None => first_line_of_form lit ls'
      end
  end.

Definition specified_header_value (name text : string) : option string :=
  trim <$> first_line_of_form (name +:+ ":") (lines text).

(** *** The search of the expression, read line by line

    The expression of [getFileHeaders] has no anchor: [Name:] may stand
    anywhere in a line, as in the comment block of a plugin file, where
    each header follows a star. Line by line, [exec] amounts to the
    definitions below (lemma [exec_line_by_line]). *)

(** The rest of [line] after the first [lit] in it, wherever it stands, if
    [lit] occurs. *)
Fixpoint rest_after (lit line : string) : option string :=
  if String.prefix lit line then Some (drop (String.length lit) line)
  else match line with
       | "" => None
       | String _ line' => rest_after lit line'
       end.

(** The rest of the first line in which [lit] occurs, after its first
    occurrence there. *)
Fixpoint first_match (lit : string) (ls : list string) : option string :=
  match ls with
  | [] => None
  | l :: ls' =>
      match rest_after lit l with
      | Some r => Some r
      | None => first_match lit ls'
      end
  end.

Definition header_value (name text : string) : option string :=
  trim <$> first_match (name +:+ ":") (lines text).

End Headers.

(** ** The query-based revision *)

Module QueryRev.
Import Js Http.

Record Data : Type := mkData {
  vendor : value;
  package : value;
  basename : string;
  slug : value;
  file : value;
  type : string;
  isTheme : bool;
  isPlugin : bool;
  release : value;
  fileHeaders : gmap string string
}.

Definition set_release (r : value) (d : Data) : Data :=
  mkData (vendor d) (package d) (basename d) (slug d) (file d) (type d)
         (isTheme d) (isPlugin d) r (fileHeaders d).

Definition set_fileHeaders (fh : gmap string string) (d : Data) : Data :=
  mkData (vendor d) (package d) (basename d) (slug d) (file d) (type d)
         (isTheme d) (isPlugin d) (release d) fh.

(** [data.file.substring(data.file.lastIndexOf('.') + 1)] *)
Definition extension (file : value) : completion string :=
  match file with
  | VStr f => Normal (substring f (lastIndexOf f "." + 1))
  | VUndefined =>
      TypeError "Cannot read properties of undefined (reading 'substring')"
  | VNull => TypeError "Cannot read properties of null (reading 'substring')"
  | _ => TypeError "data.file.substring is not a function"
  end.

Definition getDataFromRequest (request : Request) : completion Data :=
  let vendor := get "vendor" request in
  let package := get "package" request in
  let basename :=
    toString (or_else (get "basename" request)
                (VStr (toString package +:+ "/" +:+ toString package +:+ ".php"))) in
  (* const [slug, file] = data.basename.split('/') *)
  let parts := split "/" basename in
  let slug := default VUndefined (VStr <$> parts !! 0%nat) in
  let file := default VUndefined (VStr <$> parts !! 1%nat) in
  let* ext := extension file in
  let type := if bool_decide (ext = "css") then "theme" else "plugin" in
  Normal (mkData vendor package basename slug file type
            (bool_decide ("theme" = type)) (bool_decide ("plugin" = type))
            VUndefined ∅).

Definition getPayload (data : Data) : completion value :=
  let fh := Headers.header (fileHeaders data) in
  let name := if isTheme data then fh "Theme Name" else fh "Plugin Name" in
  let* published_at := getProp (release data) "published_at" in
  let* assets := getProp (release data) "assets" in
  let* asset := getFirst assets in
  let* download := getProp asset "browser_download_url" in
  Normal (VObj (
    [ ("name", name);
      ("type", VStr (type data));
      ("version", or_else (fh "Version") (VStr ""));
      ("description", or_else (fh "Description") (VStr ""));
      ("author", VObj [ ("name", or_else (fh "Author") (VStr ""));
                        ("url", or_else (fh "Author URI") (VStr "")) ]);
      ("updated", or_else published_at (VStr ""));
      ("slug", slug data) ]
    ++ (if isPlugin data then [("basename", VStr (basename data))] else [])
    ++ [ ("url", if isTheme data then fh "Theme URI" else fh "Plugin URI");
         ("download", download);
         ("requires", VObj [ ("wp", or_else (fh "Requires at least") (VStr ""));
                             ("php", or_else (fh "Requires PHP") (VStr "")) ]);
         ("tested", VObj [ ("wp", or_else (fh "Tested up to") (VStr "")) ]) ])).

(** The loop [for (release of releases) { if (release.assets.length)
    { data.release = release; break; } }]: the value of [data.release]
    when the loop is left. *)
Fixpoint scan (releases : list value) : completion value :=
  match releases with
  | [] => Normal VUndefined
  | release :: rest =>
      let* assets := getProp release "assets" in
      let* len := getProp assets "length" in
      if truthy len then Normal release else scan rest
  end.

(** [handleRequest] from the point where [data] has passed the checks on
    its fields. *)
Definition resolve (env : Env) (request : Request) (data : Data) : completion Outcome :=
  let* response := fetch env (api_releases (vendor data) (package data)) in
  let* releases := json response in
  (* Proxy error response *)
  if negb (up_status response =? 200) then
    replying (getResponse releases (up_status response))
  (* Return 404 if a release isn't found *)
  else if no_releases releases then
    replying (getResponse (VStr "No releases available!") 404)
  else
    (* Skip over releases without release assets. *)
    let* found := scan (elements releases) in
    let data := set_release found data in
    (* Return 404 if no release asset is found. *)
    if negb (truthy (optProp (optProp (release data) "assets") "length")) then
      replying (getResponse (VStr "No release asset found!") 404)
    else
      let* tag_name := getProp (release data) "tag_name" in
      let filePath := raw_file (vendor data) (package data) tag_name (file data) in
      let* response := fetch env filePath in
      (* Unable to read base file *)
      if negb (up_status response =? 200) then
        replying (getResponse
          (VStr ("Unable to fetch " +:+ type data +:+ " file: " +:+ filePath)) 404)
      else
        let data := set_fileHeaders (Headers.getFileHeaders (up_text response)) data in
        let* payload := getPayload data in
        let* response := getResponse payload 200 in
        let response := append_header "Cache-Control" "s=maxage=10" response in
        Normal (mkOutcome response [(href request, response)]).

Definition handleRequest (env : Env) (request : Request) : completion Outcome :=
  match cache env !! href request with
  | Some response => Normal (reply response)
  | None =>
      let* data := getDataFromRequest request in
      if negb (truthy (vendor data)) then
        replying (getErrorResponse (VStr "Missing URL param: vendor") 400)
      else if negb (truthy (package data)) then
        replying (getErrorResponse (VStr "Missing URL param: package") 400)
      else resolve env request data
  end.

Definition listener (env : Env) (request : Request) : Outcome :=
  respondWith (handleRequest env request).

End QueryRev.

(** ** The path-based revision *)

Module PathRev.
Import Js Http.

Record Data : Type := mkData {
  type : value;
  vendor : value;
  package : value;
  slug : value;
  file : value;
  basename : string;
  isDownload : bool;
  release : value;
  fileHeaders : gmap string string
}.

Definition set_release (r : value) (d : Data) : Data :=
  mkData (type d) (vendor d) (package d) (slug d) (file d) (basename d)
         (isDownload d) r (fileHeaders d).

Definition set_fileHeaders (fh : gmap string string) (d : Data) : Data :=
  mkData (type d) (vendor d) (package d) (slug d) (file d) (basename d)
         (isDownload d) (release d) fh.

Definition getDataFromRequest (request : Request) : Data :=
  let segments := path_segments request in
  let type :=
    if truthy (at_index segments 0)
    then VStr (slice_0_m1 (toString (at_index segments 0))) else VNull in
  let vendor := if truthy (at_index segments 1) then at_index segments 1 else VNull in
  let _package := if truthy (at_index segments 2) then at_index segments 2 else VNull in
  let isDownload :=
    (truthy (at_index segments 3) && is_str (at_index segments 3) "download")
    || has "download" request in
  let slug := or_else (get "slug" request) _package in
  let file :=
    or_else (get "file" request)
      (if is_str type "theme" then VStr "style.css"
       else VStr (toString _package +:+ ".php")) in
  let basename := toString slug +:+ "/" +:+ toString file in
  mkData type vendor _package slug file basename isDownload VUndefined ∅.

Definition getPayload (data : Data) : completion value :=
  let fh := Headers.header (fileHeaders data) in
  let* published_at := getProp (release data) "published_at" in
  let* assets := getProp (release data) "assets" in
  let* asset := getFirst assets in
  let* download := getProp asset "browser_download_url" in
  Normal (VObj (
    [ ("name", if is_str (type data) "theme" then fh "Theme Name" else fh "Plugin Name");
      ("type", type data);
      ("version", or_else (fh "Version") (VStr ""));
      ("description", or_else (fh "Description") (VStr ""));
      ("author", VObj [ ("name", or_else (fh "Author") (VStr ""));
                        ("url", or_else (fh "Author URI") (VStr "")) ]);
      ("updated", or_else published_at (VStr ""));
      ("requires", VObj [ ("wp", or_else (fh "Requires at least") (VStr ""));
                          ("php", or_else (fh "Requires PHP") (VStr "")) ]);
      ("tested", VObj [ ("wp", or_else (fh "Tested up to") (VStr "")) ]);
      ("url", or_else (if is_str (type data) "theme"
                       then fh "Theme URI" else fh "Plugin URI") (VStr ""));
      ("download", download);
      ("slug", slug data) ]
    ++ (if is_str (type data) "plugin" then [("basename", VStr (basename data))] else []))).

Definition resolve (env : Env) (request : Request) (data : Data) : completion Outcome :=
  let* response := fetch env (api_releases (vendor data) (package data)) in
  let* releases := json response in
  (* Proxy error response *)
  if negb (up_status response =? 200) then
    replying (getResponse releases (up_status response))
  (* Return 404 if a release isn't found *)
  else if no_releases releases then
    replying (getResponse (VStr "No releases available!") 404)
  else
    (* Skip over releases without release assets. *)
    let* found := QueryRev.scan (elements releases) in
    let data := set_release found data in
    (* Return 404 if no release asset is found. *)
    if negb (truthy (optProp (optProp (release data) "assets") "length")) then
      replying (getResponse (VStr "No release asset found!") 404)
    else
      let* tag_name := getProp (release data) "tag_name" in
      let filePath := raw_file (vendor data) (package data) tag_name (file data) in
      let* response := fetch env filePath in
      (* Unable to read base file *)
      if negb (up_status response =? 200) then
        replying (getResponse
          (VStr ("Unable to fetch " +:+ toString (type data) +:+ " file: " +:+ filePath)) 404)
      else
        let data := set_fileHeaders (Headers.getFileHeaders (up_text response)) data in
        let* payload := getPayload data in
        (* Force a download *)
        if isDownload data then
          replying (redirect (parse_url env) (download payload) 301)
        else
          let* response := getResponse payload 200 in
          let response := append_header "Cache-Control" "s=maxage=10" response in
          Normal (mkOutcome response [(href request, response)]).

Definition handleRequest (env : Env) (request : Request) : completion Outcome :=
  match cache env !! href request with
  | Some response => Normal (reply response)
  | None =>
      let data := getDataFromRequest request in
      if negb (is_str (type data) "theme") && negb (is_str (type data) "plugin") then
        replying (getErrorResponse (VStr "The first URL path segment is missing a valid entity type. Must be either 'plugins' or 'themes'.") 400)
      else if negb (truthy (vendor data)) then
        replying (getErrorResponse (VStr "The second URL path segment is missing. It should contain the vendor name.") 400)
      else if negb (truthy (package data)) then
        replying (getErrorResponse (VStr "The third URL path segment is missing. It should contain the package name.") 400)
      else resolve env request data
  end.

Definition listener (env : Env) (request : Request) : Outcome :=
  respondWith (handleRequest env request).

End PathRev.

(** ** The current revision *)

Module Current.
Import Js Http.

Record Data : Type := mkData {
  basename : string;
  file : value;
  isDownload : bool;
  package : value;
  slug : value;
  type : value;
  vendor : value;
  version : value;
  latestRelease : value;
  release : value;
  fileHeaders : gmap string string
}.

Definition set_releases (latest r : value) (d : Data) : Data :=
  mkData (basename d) (file d) (isDownload d) (package d) (slug d) (type d)
         (vendor d) (version d) latest r (fileHeaders d).

Definition set_fileHeaders (fh : gmap string string) (d : Data) : Data :=
  mkData (basename d) (file d) (isDownload d) (package d) (slug d) (type d)
         (vendor d) (version d) (latestRelease d) (release d) fh.

Definition getDataFromRequest (request : Request) : Data :=
  let segments := path_segments request in
  (* Set entity type *)
  let type := (shift segments).1 in
  let segments := (shift segments).2 in
  let type :=
    if truthy type && (is_str type "plugin" || is_str type "plugins")
    then VStr "plugin" else type in
  let type :=
    if truthy type && (is_str type "theme" || is_str type "themes")
    then VStr "theme" else type in
  (* Set vendor name *)
  let vendor := (shift segments).1 in
  let segments := (shift segments).2 in
  (* Set package name *)
  let _package := (shift segments).1 in
  let segments := (shift segments).2 in
  (* Check if we should download *)
  let isDownload := bool_decide ("download" ∈ segments) in
  let segments := if isDownload then pop segments else segments in
  (* Set version, if provided *)
  let version := (shift segments).1 in
  (* Set slug *)
  let slug := or_else (get "slug" request) _package in
  (* Set file *)
  let file :=
    or_else (get "file" request)
      (if is_str type "theme" then VStr "style.css"
       else VStr (toString _package +:+ ".php")) in
  (* Set basename *)
  let basename := toString slug +:+ "/" +:+ toString file in
  mkData basename file isDownload _package slug type vendor version
         VUndefined VUndefined ∅.

Definition getPayload (data : Data) : completion value :=
  let fh := Headers.header (fileHeaders data) in
  let* latest := getProp (latestRelease data) "tag_name" in
  let* published_at := getProp (release data) "published_at" in
  let* assets := getProp (release data) "assets" in
  let* asset := getFirst assets in
  let* download := getProp asset "browser_download_url" in
  Normal (VObj (
    [ ("name", if is_str (type data) "theme" then fh "Theme Name" else fh "Plugin Name");
      ("type", type data);
      ("version", VObj [ ("current", fh "Version"); ("latest", latest) ]);
      ("description", or_else (fh "Description") (VStr ""));
      ("author", VObj [ ("name", or_else (fh "Author") (VStr ""));
                        ("url", or_else (fh "Author URI") (VStr "")) ]);
      ("updated", or_else published_at (VStr ""));
      ("requires", VObj [ ("wp", or_else (fh "Requires at least") (VStr ""));
                          ("php", or_else (fh "Requires PHP") (VStr "")) ]);
      ("tested", VObj [ ("wp", or_else (fh "Tested up to") (VStr "")) ]);
      ("url", or_else (if is_str (type data) "theme"
                       then fh "Theme URI" else fh "Plugin URI") (VStr ""));
      ("download", download);
      ("slug", slug data) ]
    ++ (if is_str (type data) "plugin" then [("basename", VStr (basename data))] else []))).

(** [data] passes the three checks at the head of [handleRequest]. *)
Definition valid (data : Data) : bool :=
  (is_str (type data) "theme" || is_str (type data) "plugin")
  && truthy (vendor data) && truthy (package data).

(** The loop [for (release of releases) { if (release.assets.length) break; }]
    of [getLatestRelease]: the value of the variable [release] when the loop
    is left, [release] being its value on entry. *)
Fixpoint scan (release : value) (releases : list value) : completion value :=
  match releases with
  | [] => Normal release
  | next :: rest =>
      let* assets := getProp next "assets" in
      let* len := getProp assets "length" in
      if truthy len then Normal next else scan next rest
  end.

Definition getLatestRelease (env : Env) (data : Data) : completion value :=
  (* Fetch the most recent releases from GitHub *)
  let* response := fetch env (api_releases (vendor data) (package data)) in
  let* releases := json response in
  (* Proxy error response *)
  if negb (up_status response =? 200) then Throw (Thrown releases)
  else if no_releases releases then Throw (Thrown (VStr "No releases available!"))
  else
    (* Skip over releases without release assets. *)
    let* release := scan VUndefined (elements releases) in
    if negb (truthy release) then Throw (Thrown (VStr "No releases have release assets!"))
    else Normal release.

Definition api_release_tag (vendor package version : value) : string :=
  api_releases vendor package +:+ "/tags/" +:+ toString version.

Definition getRelease (env : Env) (data : Data) : completion value :=
  (* Fetch a specific release from GitHub *)
  let* response :=
    fetch env (api_release_tag (vendor data) (package data) (version data)) in
  let* release := json response in
  (* Proxy error response *)
  if negb (up_status response =? 200) then Throw (Thrown release)
  else
    let* assets := getProp release "assets" in
    let* len := getProp assets "length" in
    (* Release doesn't have a downloadable *)
    if negb (truthy len) then
      Throw (Thrown (VStr ("Release " +:+ toString (version data)
                           +:+ " doesn't have a release asset!")))
    else Normal release.

(** The body of the [try] in [handleRequest]: [data] with its
    [latestRelease] and [release]. *)
Definition releases_of (env : Env) (data : Data) : completion Data :=
  let* latest := getLatestRelease env data in
  let* release :=
    if truthy (version data) then getRelease env data else Normal latest in
  Normal (set_releases latest release data).

(** [handleRequest] after the [try]. *)
Definition deliver (env : Env) (request : Request) (data : Data) : completion Outcome :=
  let* tag_name := getProp (release data) "tag_name" in
  let filePath := raw_file (vendor data) (package data) tag_name (file data) in
  let* response := fetch env filePath in
  (* Unable to read base file *)
  if negb (up_status response =? 200) then
    replying (getResponse
      (VStr ("Unable to fetch " +:+ toString (type data) +:+ " file: " +:+ filePath)) 404)
  else
    (* Get file headers *)
    let data := set_fileHeaders (Headers.getFileHeaders (up_text response)) data in
    (* Get payload *)
    let* payload := getPayload data in
    (* Force a download *)
    if isDownload data then
      replying (redirect (parse_url env) (download payload) 301)
    else
      (* Prepare response *)
      let* response := getResponse payload 200 in
      (* Set cache header *)
      let response := append_header "Cache-Control" "s=maxage=10" response in
      (* Cache response *)
      Normal (mkOutcome response [(href request, response)]).

Definition handleRequest (env : Env) (request : Request) : completion Outcome :=
  match cache env !! href request with
  | Some response => Normal (reply response)
  | None =>
      let data := getDataFromRequest request in
      (* Run some error checks *)
      if negb (is_str (type data) "theme") && negb (is_str (type data) "plugin") then
        replying (getErrorResponse (VStr "The first URL path segment is missing a valid entity type. Must be either 'plugins' or 'themes'.") 400)
      else if negb (truthy (vendor data)) then
        replying (getErrorResponse (VStr "The second URL path segment is missing. It should contain the vendor name.") 400)
      else if negb (truthy (package data)) then
        replying (getErrorResponse (VStr "The third URL path segment is missing. It should contain the package name.") 400)
      else
        (* Get the release *)
        match releases_of env data with
        | Throw e =>
            let* m := message e in
            replying (getErrorResponse m 404)
        | Normal data => deliver env request data
        end
  end.

Definition listener (env : Env) (request : Request) : Outcome :=
  respondWith (handleRequest env request).

End Current.

(** ** Sample requests and remote answers *)

Module Examples.
Import Js Http.

(** A release with one downloadable asset, and one with none. *)
Definition with_asset : value :=
  VObj [ ("tag_name", VStr "v2.0");
         ("published_at", VStr "2020-05-11T22:23:45Z");
         ("assets", VArr [ VObj [ ("browser_download_url",
                                   VStr "https://github.com/acme/widget/releases/download/v2.0/widget.zip") ] ]) ].

Definition without_asset : value :=
  VObj [ ("tag_name", VStr "v3.0");
         ("published_at", VStr "2021-08-06T13:27:23Z");
         ("assets", VArr []) ].

Definition not_found : Upstream :=
  mkUpstream 404 (Some (VObj [ ("message", VStr "Not Found") ])) "".

Definition widget_php : string :=
  "<?php
/*
Plugin Name: Widget
Version: 1.2.3   
Author: Acme
*/".

(** A text in which [Version:] stands inside an earlier line. *)
Definition prefixed_version : string :=
  "X-Version: 9
Version: 1.2.3   ".

(** The remote end for the repository [acme/widget]: [listing] is the
    answer of the release list, the release tagged [v3.0] has no asset, and
    the main plugin file is served at both tags. *)
Definition remote (listing : Upstream) (url : string) : completion Upstream :=
  if bool_decide (url = "https://api.github.com/repos/acme/widget/releases") then
    Normal listing
  else if bool_decide (url = "https://api.github.com/repos/acme/widget/releases/tags/v3.0") then
    Normal (mkUpstream 200 (Some without_asset) "")
  else if bool_decide (url = "https://api.github.com/repos/acme/widget/releases/tags/v2.0") then
    Normal (mkUpstream 200 (Some with_asset) "")
  else if bool_decide (url = "https://raw.githubusercontent.com/acme/widget/v2.0/widget.php") then
    Normal (mkUpstream 200 None widget_php)
  else if bool_decide (url = "https://raw.githubusercontent.com/acme/widget/v3.0/widget.php") then
    Normal (mkUpstream 200 None widget_php)
  else Normal not_found.

(** A URL parser that knows the one address the samples redirect to, which
    is its own serialisation, and takes no other string for a URL. *)
Definition parser (url : string) : option string :=
  if bool_decide (url = "https://github.com/acme/widget/releases/download/v2.0/widget.zip")
  then Some url else None.

(** An empty edge cache in front of that remote end. *)
Definition env (listing : Upstream) : Env := mkEnv (remote listing) ∅ parser.

Definition releases (rs : list value) : Upstream := mkUpstream 200 (Some (VArr rs)) "".



Definition rate_limited : Upstream :=
  mkUpstream 403 (Some (VObj [ ("message", VStr "API rate limit exceeded") ])) "".

(** [GET /plugins/acme/widget] and friends. *)
Definition latest_plugin : Request :=
  mkRequest "https://api.example/plugins/acme/widget" "/plugins/acme/widget" [].

Definition tagged_plugin : Request :=
  mkRequest "https://api.example/plugins/acme/widget/v3.0" "/plugins/acme/widget/v3.0" [].


Definition renamed_plugin : Request :=
  mkRequest "https://api.example/plugins/acme/widget?slug=widget-pro&file=main.php"
            "/plugins/acme/widget" [ ("slug", "widget-pro"); ("file", "main.php") ].

Definition empty_slug : Request :=
  mkRequest "https://api.example/plugins/acme/widget?slug=&file=main.php"
            "/plugins/acme/widget" [ ("slug", ""); ("file", "main.php") ].

(** Requests of the query-based revision. *)
Definition by_query (params : list (string * string)) : Request :=
  mkRequest "https://api.example/" "/" params.

Definition plugin_query : Request :=
  by_query [ ("vendor", "acme"); ("package", "widget") ].

Definition theme_query : Request :=
  by_query [ ("vendor", "acme"); ("package", "widget"); ("basename", "widget/style.css") ].

Definition nested_query : Request :=
  by_query [ ("vendor", "acme"); ("package", "widget"); ("basename", "widget/assets/style.css") ].

Definition flat_query : Request :=
  by_query [ ("vendor", "acme"); ("package", "widget"); ("basename", "style.css") ].

Definition empty_basename : Request := by_query [ ("basename", "") ].

(** Paths that stop early. *)
Definition only_type : Request :=
  mkRequest "https://api.example/themes" "/themes" [].

Definition only_vendor : Request :=
  mkRequest "https://api.example/themes/acme/" "/themes/acme/" [].

Definition singular_plugin : Request :=
  mkRequest "https://api.example/plugin/acme/widget" "/plugin/acme/widget" [].

(** What [handleRequest] hands to [getPayload] for [latest_plugin] when
    the release list holds [with_asset]. *)
Definition widget_data : Current.Data :=
  Current.set_fileHeaders (Headers.getFileHeaders widget_php)
    (Current.set_releases with_asset with_asset
       (Current.getDataFromRequest latest_plugin)).

Definition download_plugin : Request :=
  mkRequest "https://api.example/plugins/acme/widget/download"
            "/plugins/acme/widget/download" [].

Definition missing_file_plugin : Request :=
  mkRequest "https://api.example/plugins/acme/widget?file=absent.php"
            "/plugins/acme/widget" [ ("file", "absent.php") ].

Definition missing_tag_plugin : Request :=
  mkRequest "https://api.example/plugins/acme/widget/v9.9" "/plugins/acme/widget/v9.9" [].

(** The asset of [with_asset]. *)
Definition zip : list (string * value) :=
  [ ("browser_download_url",
     VStr "https://github.com/acme/widget/releases/download/v2.0/widget.zip") ].

End Examples.
(** ** Pathnames and the cache after a request *)

Module Paths.
Import Js Http.

(** The pathname with the given segments, each one behind a slash. *)
Fixpoint path_of (segments : list string) : string :=
  match segments with
  | [] => ""
  | seg :: rest => "/" +:+ seg +:+ path_of rest
  end.

(** A path segment as [path_segments] yields them: not empty, no slash. *)
Definition segment (seg : string) : Prop := seg <> "" /\ mem "/" seg = false.

(** The four spellings of the entity type the current revision accepts. *)
Definition entity_spellings : list string := ["plugin"; "plugins"; "theme"; "themes"].

End Paths.

Module Cache.
Import Js Http.

(** The collaborators once the cache writes an outcome left to
    [event.waitUntil] have run: [cache.put(key, response)] stores the
    response under its key. Expiry is not modelled. *)
Definition settle (o : Outcome) (env : Env) : Env :=
  mkEnv (fetch env)
        (foldl (fun c kr => <[kr.1 := kr.2]> c) (cache env) (waitUntil o))
        (parse_url env).

End Cache.

Module Replies.
Import Js Http.

(** The 400 of [getErrorResponse(message)]. *)
Definition bad_request (message : string) : Response :=
  mkResponse 400 "Bad Request" [("Content-Type", "application/json")]
    (BJson (VObj [ ("status", VStr "error"); ("message", VStr message) ])).

(** The 404 of [getResponse(text, 404)], whose body is a JSON string. *)
Definition not_found_text (text : string) : Response :=
  mkResponse 404 "Not Found" [("Content-Type", "application/json")]
    (BJson (VStr text)).

(** The 404 of [getErrorResponse(message, 404)]. *)
Definition not_found_error (message : value) : Response :=
  mkResponse 404 "Not Found" [("Content-Type", "application/json")]
    (BJson (stringify (VObj [ ("status", VStr "error"); ("message", message) ]))).

Definition no_type : string :=
  "The first URL path segment is missing a valid entity type. Must be either 'plugins' or 'themes'.".

Definition no_vendor : string :=
  "The second URL path segment is missing. It should contain the vendor name.".

Definition no_package : string :=
  "The third URL path segment is missing. It should contain the package name.".

End Replies.

(** * Facts about the primitives *)

Module JsFacts.
Import Js.

Lemma app_cons a (s t : string) : String a s +:+ t = String a (s +:+ t).
Proof. reflexivity. Qed.

Lemma app_assoc_str (s t u : string) : (s +:+ t) +:+ u = s +:+ t +:+ u.
Proof.
  induction s as [|a s IH]; [reflexivity|].
  rewrite !app_cons. by rewrite IH.
Qed.

Lemma mem_app c (s t : string) : mem c (s +:+ t) = mem c s || mem c t.
Proof.
  induction s as [|a s IH]; [reflexivity|].
  rewrite app_cons. simpl. rewrite IH. by rewrite orb_assoc.
Qed.

Lemma truthy_str s : s <> "" -> truthy (VStr s) = true.
Proof. intros Hs. simpl. by rewrite bool_decide_eq_false_2. Qed.

Lemma or_else_str s v : s <> "" -> or_else (VStr s) v = VStr s.
Proof. intros Hs. unfold or_else. by rewrite truthy_str. Qed.

(** [split] on a string without the separator, and with exactly one. *)
Lemma split_none c s : mem c s = false -> split c s = [s].
Proof.
  induction s as [|a s IH]; simpl; [done|]. intros H.
  apply orb_false_iff in H as [Ha Hs].
  rewrite Ha, IH; done.
Qed.

Lemma split_one c S F :
  mem c S = false -> mem c F = false -> split c (S +:+ String c F) = [S; F].
Proof.
  intros HS HF. induction S as [|a S IH].
  - change ("" +:+ String c F) with (String c F). simpl.
    rewrite bool_decide_eq_true_2 by done. by rewrite split_none.
  - rewrite app_cons. simpl in *. apply orb_false_iff in HS as [Ha HS].
    rewrite Ha, IH; done.
Qed.

(** [lastIndexOf] and [substring] around the last occurrence. *)
Lemma lastIndexOf_none c s : mem c s = false -> lastIndexOf s c = -1.
Proof.
  induction s as [|a s IH]; simpl; [done|]. intros H.
  apply orb_false_iff in H as [Ha Hs]. rewrite IH, Ha; done.
Qed.

Lemma lastIndexOf_last c before after :
  mem c after = false ->
  lastIndexOf (before +:+ String c after) c = Z.of_nat (String.length before).
Proof.
  intros H. induction before as [|a before IH].
  - change ("" +:+ String c after) with (String c after). simpl.
    rewrite lastIndexOf_none by done. simpl. by rewrite bool_decide_eq_true_2.
  - rewrite app_cons. cbn [lastIndexOf String.length]. rewrite IH.
    destruct (0 <=? Z.of_nat (String.length before)) eqn:E; [lia|].
    apply Z.leb_gt in E. lia.
Qed.

Lemma drop_app before after :
  drop (String.length before) (before +:+ after) = after.
Proof. induction before as [|a before IH]; [by destruct after|]. by rewrite app_cons. Qed.

Lemma substring_last c before after :
  mem c after = false ->
  substring (before +:+ String c after)
            (lastIndexOf (before +:+ String c after) c + 1) = after.
Proof.
  intros H. rewrite lastIndexOf_last by done. unfold substring.
  replace (Z.to_nat (Z.max 0 (Z.of_nat (String.length before) + 1)))
    with (S (String.length before)) by lia.
  change (S (String.length before)) with (String.length (String "x" before)).
  induction before as [|a before IH]; [done|].
  rewrite app_cons. exact IH.
Qed.

Lemma mem_last c s :
  mem c s = true -> exists before after,
    s = before +:+ String c after /\ mem c after = false.
Proof.
  induction s as [|a s IH]; simpl; [done|]. intros H.
  destruct (mem c s) eqn:Hs.
  - destruct IH as (before & after & -> & Hafter); [done|].
    by exists (String a before), after.
  - rewrite orb_false_r in H. apply bool_decide_eq_true_1 in H as ->.
    by exists "", s.
Qed.

Lemma ends_with_app suffix s t : ends_with suffix t -> ends_with suffix (s +:+ t).
Proof. intros [before ->]. exists (s +:+ before). by rewrite app_assoc_str. Qed.

End JsFacts.

(** * The header parser *)

Module HeadersFacts.
Import Js Headers.

(** Membership of a literal name in the list of known headers. *)
Ltac known_header := apply list_elem_of_In; simpl; tauto.

Lemma trimStart_start s : starts_with_white_space (trimStart s) = false.
Proof.
  induction s as [|c s IH]; simpl; [done|].
  destruct (is_white_space c) eqn:Hc; [done|]. simpl. exact Hc.
Qed.

Lemma trimEnd_end s : ends_with_white_space (trimEnd s) = false.
Proof.
  induction s as [|c s IH]; simpl; [done|].
  destruct (trimEnd s) as [|a r] eqn:Hr.
  - destruct (is_white_space c) eqn:Hc; simpl; done.
  - exact IH.
Qed.

Lemma trimEnd_start s :
  starts_with_white_space s = false -> starts_with_white_space (trimEnd s) = false.
Proof.
  destruct s as [|c s]; simpl; [done|]. intros Hc.
  destruct (trimEnd s); rewrite ?Hc; simpl; done.
Qed.

Lemma trim_trimmed s : trimmed (trim s).
Proof.
  split; [apply trimEnd_start, trimStart_start | apply trimEnd_end].
Qed.

(** One pass of the [forEach] leaves under [k] the trimmed capture for [k]
    when [k] is among the names visited and its expression matches, and
    what was there before otherwise. *)
Lemma forEach_lookup text (names : list string) (m : gmap string string) (k : string) :
  foldl (fun fileHeaders header =>
           match exec (header +:+ ":") text with
           | Some m1 => <[header := trim m1]> fileHeaders
           | None => fileHeaders
           end) m names !! k
  = match (if bool_decide (k ∈ names) then exec (k +:+ ":") text else None) with
    | Some m1 => Some (trim m1)
    | None => m !! k
    end.
Proof.
  revert m. induction names as [|h names IH]; intros m; simpl; [done|].
  rewrite IH. clear IH.
  destruct (decide (k = h)) as [->|Hne].
  - rewrite (bool_decide_eq_true_2 (h ∈ h :: names)) by constructor.
    case_bool_decide.
    + destruct (exec (h +:+ ":") text); done.
    + destruct (exec (h +:+ ":") text); [by rewrite lookup_insert_eq|done].
  - assert (bool_decide (k ∈ h :: names) = bool_decide (k ∈ names)) as ->.
    { apply bool_decide_ext. rewrite elem_of_cons. intuition congruence. }
    destruct (if bool_decide (k ∈ names) then exec (k +:+ ":") text else None); [done|].
    destruct (exec (h +:+ ":") text); [by rewrite lookup_insert_ne|done].
Qed.

Lemma getFileHeaders_lookup text k :
  getFileHeaders text !! k
  = if bool_decide (k ∈ headers) then trim <$> exec (k +:+ ":") text else None.
Proof.
  unfold getFileHeaders. rewrite forEach_lookup.
  case_bool_decide; [|done]. by destruct (exec (k +:+ ":") text).
Qed.

(** *** The expression search against the line-by-line reading *)

Lemma lines_first text : lines text = dot_star text :: tail (lines text).
Proof.
  induction text as [|c text IH]; simpl; [done|].
  destruct (is_line_terminator c); [done|].
  rewrite IH. done.
Qed.

Lemma prefix_first_line lit s :
  has_line_terminator lit = false ->
  String.prefix lit s = String.prefix lit (dot_star s).
Proof.
  revert s. induction lit as [|a lit IH]; intros s Hlit.
  { by destruct s as [|b s]; simpl; [|destruct (is_line_terminator b)]. }
  simpl in Hlit. apply orb_false_iff in Hlit as [Ha Hlit].
  destruct s as [|b s]; simpl; [done|].
  destruct (is_line_terminator b) eqn:Hb; simpl.
  - destruct (ascii_dec a b) as [->|]; [congruence|done].
  - destruct (ascii_dec a b); [by apply IH|done].
Qed.

Lemma drop_first_line lit s :
  has_line_terminator lit = false ->
  String.prefix lit s = true ->
  dot_star (drop (String.length lit) s) = drop (String.length lit) (dot_star s).
Proof.
  revert s. induction lit as [|a lit IH]; intros s Hlit Hpre; [done|].
  simpl in Hlit. apply orb_false_iff in Hlit as [Ha Hlit].
  destruct s as [|b s]; simpl in *; [done|].
  destruct (ascii_dec a b) as [->|]; [|done].
  rewrite Ha. simpl. by apply IH.
Qed.

Lemma exec_line_by_line lit text :
  lit <> "" -> has_line_terminator lit = false ->
  exec lit text = first_match lit (lines text).
Proof.
  intros Hne Hlit. induction text as [|c text IH].
  { destruct lit; done. }
  cbn [exec lines].
  destruct (is_line_terminator c) eqn:Hc.
  - assert (String.prefix lit (String c text) = false) as ->.
    { destruct lit as [|a lit]; [done|]. simpl in *.
      apply orb_false_iff in Hlit as [Ha _].
      destruct (ascii_dec a c) as [->|]; [congruence|done]. }
    rewrite IH. cbn [first_match rest_after].
    by destruct lit.
  - rewrite (lines_first text) in *.
    cbn [first_match rest_after].
    rewrite (prefix_first_line lit (String c text)) by done.
    cbn [dot_star]. rewrite Hc.
    destruct (String.prefix lit (String c (dot_star text))) eqn:Hpre.
    + f_equal. rewrite drop_first_line; [by cbn [dot_star]; rewrite Hc|done|].
      rewrite prefix_first_line by done. cbn [dot_star]. by rewrite Hc.
    + rewrite IH. done.
Qed.

Lemma header_literal name :
  name ∈ headers -> name +:+ ":" <> "" /\ has_line_terminator (name +:+ ":") = false.
Proof.
  intros Hin. assert (Forall (fun h => h +:+ ":" <> "" /\ has_line_terminator (h +:+ ":") = false) headers) as HF.
  { repeat constructor; done. }
  rewrite Forall_forall in HF. by apply HF.
Qed.

Lemma first_match_app lit before l after :
  Forall (fun x => rest_after lit x = None) before ->
  first_match lit (before ++ l :: after)
  = match rest_after lit l with
    | Some r => Some r
    | None => first_match lit after
    end.
Proof.
  induction 1 as [|x before Hx _ IH]; [done|].
  simpl. by rewrite Hx.
Qed.

Lemma first_match_none lit ls :
  Forall (fun x => rest_after lit x = None) ls -> first_match lit ls = None.
Proof. induction 1 as [|x ls Hx _ IH]; [done|]. simpl. by rewrite Hx. Qed.

Lemma rest_after_of_form lit l :
  (String.prefix lit l = false -> rest_after lit l = None) ->
  rest_after lit l = line_of_form lit l.
Proof.
  intros Hstart. unfold line_of_form.
  destruct (String.prefix lit l) eqn:Hpre.
  - destruct l; cbn [rest_after]; by rewrite Hpre.
  - by apply Hstart.
Qed.

Lemma first_match_of_form lit ls :
  Forall (fun l => String.prefix lit l = false -> rest_after lit l = None) ls ->
  first_match lit ls = first_line_of_form lit ls.
Proof.
  induction 1 as [|l ls Hl _ IH]; [done|].
  simpl. rewrite (rest_after_of_form lit l Hl), IH. done.
Qed.

Lemma getFileHeaders_header_value text name :
  name ∈ headers -> getFileHeaders text !! name = header_value name text.
Proof.
  intros Hin. destruct (header_literal name Hin) as [Hne Hlit].
  rewrite getFileHeaders_lookup, bool_decide_eq_true_2 by done.
  unfold header_value. by rewrite exec_line_by_line.
Qed.

(** C6 (as amended). For a known header name, the parser returns the rest
    of the first line in which [Name:] occurs anywhere, after its first
    occurrence there, trimmed; the name is left out of the map when no
    line has [Name:] in it; when the first line with [Version:] in it is
    [Version: 1.2.3] followed by three spaces, the value is [1.2.3]; and
    when [Name:] occurs in no line past its beginning, the value is the
    one the specification words: the trimmed rest of the first line of the
    form [Name:] followed by the rest of the line. *)
Theorem C6_first_matching_line_trimmed (text name : string) :
  name ∈ headers ->
  getFileHeaders text !! name = header_value name text
  /\ (Forall (fun l => rest_after (name +:+ ":") l = None) (lines text) ->
      getFileHeaders text !! name = None)
  /\ (forall before after,
        lines text = before ++ "Version: 1.2.3   " :: after ->
        Forall (fun l => rest_after "Version:" l = None) before ->
        getFileHeaders text !! "Version" = Some "1.2.3")
  /\ (Forall (fun l => String.prefix (name +:+ ":") l = false ->
                       rest_after (name +:+ ":") l = None) (lines text) ->
      getFileHeaders text !! name = specified_header_value name text).
Proof.
  intros Hin. split; [by apply getFileHeaders_header_value|]. split; [|split].
  - intros Hnone. rewrite getFileHeaders_header_value by done.
    unfold header_value. by rewrite first_match_none.
  - intros before after Hlines Hbefore.
    rewrite getFileHeaders_header_value by known_header.
    unfold header_value. change ("Version" +:+ ":") with "Version:".
    by rewrite Hlines, first_match_app.
  - intros Hstart. rewrite getFileHeaders_header_value by done.
    unfold header_value, specified_header_value.
    by rewrite first_match_of_form.
Qed.

Lemma C6_first_matching_line_trimmed_witness :
  getFileHeaders Examples.widget_php !! "Version" = Some "1.2.3"
  /\ getFileHeaders Examples.widget_php !! "Theme Name" = None
  /\ getFileHeaders Examples.widget_php !! "Version"
     = specified_header_value "Version" Examples.widget_php.
Proof.
  destruct (C6_first_matching_line_trimmed Examples.widget_php "Version")
    as (_ & _ & Hversion & Hspecified); [known_header|].
  destruct (C6_first_matching_line_trimmed Examples.widget_php "Theme Name")
    as (_ & Hnone & _); [known_header|].
  split; [|split].
  - apply (Hversion ["<?php"; "/*"; "Plugin Name: Widget"] ["Author: Acme"; "*/"]).
    + reflexivity.
    + repeat constructor.
  - apply Hnone. vm_compute. repeat constructor.
  - apply Hspecified. vm_compute. repeat constructor; done.
Defined.

(** C6 as stated fails when [Name:] stands inside a line that comes
    first: the text below has the line [Version: 1.2.3] followed by three
    spaces, the only line of the form [Version:] followed by the rest of
    the line, and the parser takes the value from [X-Version: 9] before
    it. *)
Lemma C6_counterexample :
  In "Version: 1.2.3   " (lines Examples.prefixed_version)
  /\ specified_header_value "Version" Examples.prefixed_version = Some "1.2.3"
  /\ getFileHeaders Examples.prefixed_version !! "Version" = Some "9".
Proof. split; [|split]; vm_compute; auto. Qed.

(** C10. Whatever the text, the keys of the map are among the fifteen
    known header names, and no value starts or ends with white space. *)
Theorem C10_keys_known_values_trimmed (text : string) :
  length headers = 15%nat
  /\ map_Forall (fun name v => name ∈ headers /\ trimmed v) (getFileHeaders text).
Proof.
  split; [reflexivity|]. intros name v Hv.
  rewrite getFileHeaders_lookup in Hv.
  case_bool_decide as Hin; [|done]. split; [done|].
  destruct (exec (name +:+ ":") text) as [m1|]; [|done].
  injection Hv as <-. apply trim_trimmed.
Qed.

End HeadersFacts.

(** * The query-based parser *)

Module QueryFacts.
Import Js Http JsFacts QueryRev.

(** The text after the last dot, as [extension] computes it. *)
Lemma extension_last before after :
  mem "." after = false ->
  extension (VStr (before +:+ String "." after)) = Normal after.
Proof. intros H. simpl. by rewrite substring_last. Qed.

Lemma ends_with_css before after :
  mem "." after = false ->
  ends_with ".css" (before +:+ String "." after) <-> after = "css".
Proof.
  intros H. split.
  - intros [b Hb].
    assert (extension (VStr (before +:+ String "." after)) = Normal "css") as E.
    { rewrite Hb. by apply (extension_last b "css"). }
    rewrite extension_last in E by done. congruence.
  - intros ->. by exists before.
Qed.

(** A basename [S/F] is cut back into [S] and [F]. *)
Lemma parse_basename request S F :
  mem "/" S = false -> mem "/" F = false ->
  get "basename" request = VStr (S +:+ "/" +:+ F) ->
  getDataFromRequest request =
    let* ext := extension (VStr F) in
    let type := if bool_decide (ext = "css") then "theme" else "plugin" in
    Normal (mkData (get "vendor" request) (get "package" request)
              (S +:+ "/" +:+ F) (VStr S) (VStr F) type
              (bool_decide ("theme" = type)) (bool_decide ("plugin" = type))
              VUndefined ∅).
Proof.
  intros HS HF Hb. unfold getDataFromRequest. rewrite Hb.
  rewrite or_else_str by (by destruct S). cbn [toString].
  change (S +:+ "/" +:+ F) with (S +:+ String "/" F).
  rewrite split_one by done. reflexivity.
Qed.

(** C7 (as amended). In the query-based revision, a basename [S/F] with
    one separator whose file part [F] has a dot is classified as theme
    exactly when the basename ends in [.css], and as plugin otherwise. *)
Theorem C7_type_of_basename (request : Request) (S F : string) :
  mem "/" S = false -> mem "/" F = false -> mem "." F = true ->
  get "basename" request = VStr (S +:+ "/" +:+ F) ->
  exists data,
    getDataFromRequest request = Normal data
    /\ basename data = S +:+ "/" +:+ F
    /\ (type data = "theme" <-> ends_with ".css" (basename data))
    /\ (type data = "plugin" <-> ~ ends_with ".css" (basename data)).
Proof.
  intros HS HF Hdot Hb.
  destruct (mem_last "." F Hdot) as (before & after & -> & Hafter).
  rewrite (parse_basename request S _ HS HF Hb), extension_last by done.
  eexists. split; [reflexivity|]. cbn [basename type]. split; [done|].
  assert (ends_with ".css" (S +:+ "/" +:+ before +:+ String "." after)
          <-> after = "css") as ->.
  { rewrite <- (ends_with_css (S +:+ "/" +:+ before) after Hafter).
    by rewrite !app_assoc_str. }
  case_bool_decide; split; split; congruence.
Qed.

Lemma C7_type_of_basename_witness :
  exists data,
    getDataFromRequest Examples.theme_query = Normal data
    /\ basename data = "widget/style.css"
    /\ (type data = "theme" <-> ends_with ".css" (basename data))
    /\ (type data = "plugin" <-> ~ ends_with ".css" (basename data)).
Proof.
  apply (C7_type_of_basename Examples.theme_query "widget" "style.css");
    reflexivity.
Defined.

(** C7 as stated fails: [widget/assets/style.css] ends in [.css], and the
    parser, which looks at the second component [assets] only, classifies
    it as plugin. *)
Lemma C7_counterexample :
  exists data,
    getDataFromRequest Examples.nested_query = Normal data
    /\ get "basename" Examples.nested_query = VStr "widget/assets/style.css"
    /\ ends_with ".css" (basename data)
    /\ type data = "plugin".
Proof.
  eexists. split; [reflexivity|]. split; [reflexivity|].
  split; [by exists "widget/assets/style"|reflexivity].
Qed.

(** C9 (as amended). In the query-based revision, a request that is not
    served from the cache and whose [basename] parameter is not empty and
    has no separator leaves the file component [undefined]; the type
    inference throws a [TypeError], and the listener answers 500. *)
Theorem C9_basename_without_separator (env : Env) (request : Request) (b : string) :
  cache env !! href request = None ->
  get "basename" request = VStr b -> b <> "" -> mem "/" b = false ->
  default VUndefined (VStr <$> split "/" b !! 1%nat) = VUndefined
  /\ getDataFromRequest request
     = TypeError "Cannot read properties of undefined (reading 'substring')"
  /\ status (response (listener env request)) = 500.
Proof.
  intros Hmiss Hb Hne Hsep.
  assert (getDataFromRequest request
          = TypeError "Cannot read properties of undefined (reading 'substring')") as E.
  { unfold getDataFromRequest. rewrite Hb, or_else_str by done. cbn [toString].
    by rewrite split_none. }
  split; [by rewrite split_none|]. split; [done|].
  unfold listener, handleRequest. by rewrite Hmiss, E.
Qed.

Lemma C9_basename_without_separator_witness :
  getDataFromRequest Examples.flat_query
  = TypeError "Cannot read properties of undefined (reading 'substring')"
  /\ status (response (listener (Examples.env Examples.not_found) Examples.flat_query)) = 500.
Proof.
  apply (C9_basename_without_separator _ Examples.flat_query "style.css");
    reflexivity || done.
Defined.

(** C9 as stated fails on an empty [basename] parameter: it has no
    separator, the parser falls back to [{package}/{package}.php], nothing
    throws, and the request gets the 400 of a missing vendor. *)
Lemma C9_counterexample :
  get "basename" Examples.empty_basename = VStr ""
  /\ mem "/" "" = false
  /\ (exists data, getDataFromRequest Examples.empty_basename = Normal data
                   /\ file data = VStr "null.php")
  /\ status (response (listener (Examples.env Examples.not_found) Examples.empty_basename)) = 400.
Proof.
  split; [reflexivity|]. split; [reflexivity|].
  split; [eexists; split; reflexivity|reflexivity].
Qed.

End QueryFacts.

(** * The basename of a descriptor *)

Module BasenameFacts.
Import Js Http JsFacts.

(** C5 (as amended). For a non-empty slug [S] and a non-empty file [F], a
    path-based request with [slug=S] and [file=F] gets the basename [S/F];
    in the path-based revisions the basename of every descriptor is its
    slug and its file joined by a separator; in the query-based revision,
    where the basename is the input, slug and file give the basename back
    when it has the form [S/F] with one separator. *)
Theorem C5_basename_of_slug_and_file (request : Request) (S F : string) :
  S <> "" -> F <> "" ->
  (get "slug" request = VStr S -> get "file" request = VStr F ->
     Current.basename (Current.getDataFromRequest request) = S +:+ "/" +:+ F
     /\ PathRev.basename (PathRev.getDataFromRequest request) = S +:+ "/" +:+ F)
  /\ Current.basename (Current.getDataFromRequest request)
     = toString (Current.slug (Current.getDataFromRequest request)) +:+ "/"
       +:+ toString (Current.file (Current.getDataFromRequest request))
  /\ PathRev.basename (PathRev.getDataFromRequest request)
     = toString (PathRev.slug (PathRev.getDataFromRequest request)) +:+ "/"
       +:+ toString (PathRev.file (PathRev.getDataFromRequest request))
  /\ (mem "/" S = false -> mem "/" F = false ->
      get "basename" request = VStr (S +:+ "/" +:+ F) ->
      exists data,
        QueryRev.getDataFromRequest request = Normal data
        /\ QueryRev.slug data = VStr S /\ QueryRev.file data = VStr F
        /\ QueryRev.basename data
           = toString (QueryRev.slug data) +:+ "/" +:+ toString (QueryRev.file data)).
Proof.
  intros HS HF. split; [|split; [|split]]; [| reflexivity | reflexivity |].
  - intros Hslug Hfile. split.
    + unfold Current.getDataFromRequest. cbn [Current.basename].
      by rewrite Hslug, Hfile, !or_else_str.
    + unfold PathRev.getDataFromRequest. cbn [PathRev.basename].
      by rewrite Hslug, Hfile, !or_else_str.
  - intros HsS HsF Hb.
    rewrite (QueryFacts.parse_basename request S F HsS HsF Hb).
    destruct (QueryRev.extension (VStr F)) as [ext|e] eqn:E; [|done].
    eexists. split; [reflexivity|]. done.
Qed.

Lemma C5_basename_of_slug_and_file_witness :
  Current.basename (Current.getDataFromRequest Examples.renamed_plugin)
    = "widget-pro/main.php"
  /\ PathRev.basename (PathRev.getDataFromRequest Examples.renamed_plugin)
    = "widget-pro/main.php"
  /\ exists data,
       QueryRev.getDataFromRequest Examples.theme_query = Normal data
       /\ QueryRev.slug data = VStr "widget" /\ QueryRev.file data = VStr "style.css"
       /\ QueryRev.basename data
          = toString (QueryRev.slug data) +:+ "/" +:+ toString (QueryRev.file data).
Proof.
  pose proof (C5_basename_of_slug_and_file Examples.renamed_plugin
                "widget-pro" "main.php" ltac:(done) ltac:(done)) as (H1 & _).
  pose proof (C5_basename_of_slug_and_file Examples.theme_query
                "widget" "style.css" ltac:(done) ltac:(done)) as (_ & _ & _ & H2).
  destruct (H1 eq_refl eq_refl) as [Hc Hp].
  split; [exact Hc|]. split; [exact Hp|].
  exact (H2 eq_refl eq_refl eq_refl).
Defined.

(** C5 as stated fails twice: an empty [slug] parameter is replaced by the
    package name, and a basename with two separators is not what its slug
    and file (its first two components) give back. *)
Lemma C5_counterexample :
  (get "slug" Examples.empty_slug = VStr ""
   /\ get "file" Examples.empty_slug = VStr "main.php"
   /\ Current.basename (Current.getDataFromRequest Examples.empty_slug)
      = "widget/main.php"
   /\ Current.basename (Current.getDataFromRequest Examples.empty_slug)
      <> "" +:+ "/" +:+ "main.php")
  /\ exists data,
       QueryRev.getDataFromRequest Examples.nested_query = Normal data
       /\ QueryRev.basename data = "widget/assets/style.css"
       /\ toString (QueryRev.slug data) +:+ "/" +:+ toString (QueryRev.file data)
          = "widget/assets"
       /\ QueryRev.basename data
          <> toString (QueryRev.slug data) +:+ "/" +:+ toString (QueryRev.file data).
Proof.
  split; [repeat split; done|].
  eexists. split; [reflexivity|]. repeat split; done.
Qed.

End BasenameFacts.

(** * The release resolver and the handler of the current revision *)

Module ResolverFacts.
Import Js Http JsFacts.

Lemma getErrorResponse_ok (m : value) (code : Z) :
  code = 400 \/ code = 404 ->
  getErrorResponse m code
  = Normal (mkResponse code (getStatusText code)
              [("Content-Type", "application/json")]
              (BJson (stringify (VObj [("status", VStr "error"); ("message", m)])))).
Proof. by intros [-> | ->]. Qed.

Lemma getResponse_ok (payload : value) (code : Z) :
  200 <= code <= 599 -> null_body_status code = false ->
  getResponse payload code
  = Normal (mkResponse code (getStatusText code)
              [("Content-Type", "application/json")]
              (match payload with
               | VUndefined => BNone
               | _ => BJson (stringify payload)
               end)).
Proof.
  intros Hcode Hnull. unfold getResponse, newResponse. rewrite Hnull.
  destruct (code <? 200) eqn:E1; [apply Z.ltb_lt in E1; lia|].
  destruct (599 <? code) eqn:E2; [apply Z.ltb_lt in E2; lia|]. done.
Qed.

Lemma redirect_301 parse url r :
  redirect parse url 301 = Normal r ->
  exists location,
    parse (toString url) = Some location
    /\ r = mkResponse 301 "" [("Location", location)] BNone.
Proof.
  unfold redirect. destruct (parse (toString url)) as [location|]; [|done].
  change (redirect_status 301) with true. intros [= <-]. eauto.
Qed.

Lemma unusable_truthy release : unusable release -> truthy release = true.
Proof. unfold unusable, asset_list. by destruct release as [| | | | |xs|kv]. Qed.

Lemma usable_truthy release : usable release -> truthy release = true.
Proof.
  unfold usable, asset_list. intros (a & rest & H).
  by destruct release as [| | | | |xs|kv].
Qed.

Lemma unusable_length release :
  unusable release ->
  (let* assets := getProp release "assets" in getProp assets "length")
  = Normal (VNum 0).
Proof.
  unfold unusable, asset_list. intros H.
  destruct (getProp release "assets") as [[]|]; simplify_eq. reflexivity.
Qed.

Lemma usable_length release :
  usable release ->
  exists n, (let* assets := getProp release "assets" in getProp assets "length")
            = Normal (VNum n) /\ truthy (VNum n) = true.
Proof.
  unfold usable, asset_list. intros (asset & rest & H).
  destruct (getProp release "assets") as [[]|]; simplify_eq.
  eexists. split; [reflexivity|]. simpl. by destruct (length rest).
Qed.

(** The loop of [getLatestRelease] stops at the first usable release. *)
Lemma scan_first init before release after :
  Forall unusable before -> usable release ->
  Current.scan init (before ++ release :: after) = Normal release.
Proof.
  intros Hbefore Hrel. revert init.
  induction Hbefore as [|r before Hr _ IH]; intros init.
  - destruct (usable_length release Hrel) as (n & Hn & Ht).
    cbn [app Current.scan]. unfold bind in *.
    destruct (getProp release "assets"); [|done].
    rewrite Hn. by rewrite Ht.
  - cbn [app Current.scan]. pose proof (unusable_length r Hr) as Hlen.
    unfold bind in *. destruct (getProp r "assets"); [|done].
    rewrite Hlen. cbn [truthy Z.eqb negb]. apply IH.
Qed.

Lemma last_cons {A} (x d : A) (xs : list A) : List.last (x :: xs) d = List.last xs x.
Proof.
  revert x d. induction xs as [|y xs IH]; intros x d; [done|].
  change (List.last (x :: y :: xs) d) with (List.last (y :: xs) d).
  by rewrite (IH y d), (IH y x).
Qed.

(** Without a usable release, the loop runs to the end and leaves the last
    release in the variable. *)
Lemma scan_all_unusable init releases :
  Forall unusable releases ->
  Current.scan init releases = Normal (List.last releases init).
Proof.
  intros H. revert init. induction H as [|r rs Hr _ IH]; intros init; [done|].
  cbn [Current.scan]. pose proof (unusable_length r Hr) as Hlen.
  unfold bind in *. destruct (getProp r "assets"); [|done].
  rewrite Hlen. cbn [truthy Z.eqb negb]. by rewrite IH, last_cons.
Qed.

(** The loop of the older revisions assigns [data.release] at the first
    usable release, and never when there is none. *)
Lemma old_scan_first before release after :
  Forall unusable before -> usable release ->
  QueryRev.scan (before ++ release :: after) = Normal release.
Proof.
  intros Hbefore Hrel.
  induction Hbefore as [|r before Hr _ IH].
  - destruct (usable_length release Hrel) as (n & Hn & Ht).
    cbn [app QueryRev.scan]. unfold bind in *.
    destruct (getProp release "assets"); [|done].
    rewrite Hn. by rewrite Ht.
  - cbn [app QueryRev.scan]. pose proof (unusable_length r Hr) as Hlen.
    unfold bind in *. destruct (getProp r "assets"); [|done].
    rewrite Hlen. cbn [truthy Z.eqb negb]. apply IH.
Qed.


(** *** [getLatestRelease] on a list of release objects *)

Section LatestRelease.
Variable env : Env.
Variable data : Current.Data.
Variable listing : Upstream.
Variable releases : list value.
Hypothesis answered :
  fetch env (api_releases (Current.vendor data) (Current.package data)) = Normal listing.
Hypothesis ok : up_status listing = 200.
Hypothesis listed : up_json listing = Some (VArr releases).

Lemma getLatestRelease_scan :
  releases <> [] ->
  Current.getLatestRelease env data
  = let* release := Current.scan VUndefined releases in
    if negb (truthy release)
    then Throw (Thrown (VStr "No releases have release assets!"))
    else Normal release.
Proof.
  intros Hne. unfold Current.getLatestRelease, json.
  rewrite answered. cbn [bind]. rewrite listed, ok. cbn [bind Z.eqb Pos.eqb negb].
  unfold no_releases. cbn [truthy isArray elements negb orb].
  destruct releases; [done|]. reflexivity.
Qed.

(** The first usable release of the list is the one returned. *)
Lemma getLatestRelease_first_usable before release after :
  releases = before ++ release :: after ->
  Forall unusable before -> usable release ->
  Current.getLatestRelease env data = Normal release.
Proof.
  intros Hsplit Hbefore Hrel.
  rewrite getLatestRelease_scan by (rewrite Hsplit; by destruct before).
  rewrite Hsplit, scan_first by done. cbn [bind].
  by rewrite usable_truthy.
Qed.

(** When no release of a non-empty list is usable, the last one is
    returned all the same: the test on [release] after the loop cannot
    fail. *)
Lemma getLatestRelease_none_usable :
  releases <> [] -> Forall unusable releases ->
  Current.getLatestRelease env data = Normal (List.last releases VUndefined)
  /\ unusable (List.last releases VUndefined).
Proof.
  intros Hne Hall.
  assert (unusable (List.last releases VUndefined)) as Hlast.
  { rewrite Forall_forall in Hall. apply Hall, list_elem_of_In.
    destruct releases as [|r rs]; [done|].
    apply (@List.exists_last _ (r :: rs)) in Hne as (front & x & ->).
    rewrite List.last_last. apply in_or_app. right. by left. }
  split; [|done].
  rewrite getLatestRelease_scan, scan_all_unusable by done. cbn [bind].
  by rewrite unusable_truthy.
Qed.
End LatestRelease.

(** *** Entering the resolver *)

Lemma handleRequest_valid env request :
  cache env !! href request = None ->
  Current.valid (Current.getDataFromRequest request) = true ->
  Current.handleRequest env request
  = match Current.releases_of env (Current.getDataFromRequest request) with
    | Throw e => let* m := message e in replying (getErrorResponse m 404)
    | Normal data => Current.deliver env request data
    end.
Proof.
  intros Hmiss Hvalid. unfold Current.handleRequest. rewrite Hmiss.
  unfold Current.valid in Hvalid.
  apply andb_true_iff in Hvalid as [Hvalid Hpackage].
  apply andb_true_iff in Hvalid as [Htype Hvendor].
  rewrite Hvendor, Hpackage. cbn [negb].
  apply orb_true_iff in Htype as [-> | ->]; cbn [negb andb]; [done|].
  by rewrite andb_false_r.
Qed.





End ResolverFacts.

(** * The claims on the handler of the current revision *)

Module HandlerFacts.
Import Js Http JsFacts ResolverFacts.





(** C1 (the code departs from it). The release list of the sample holds
    one release, without assets, and no version is asked for:
    [getLatestRelease] returns that release instead of throwing, and with
    the main file served the request ends in the 500 of the listener, when
    [getPayload] reads the first asset. The path-based revision answers
    the same request with a 404. *)
Theorem C1_release_without_asset_returned :
  Current.version (Current.getDataFromRequest Examples.latest_plugin) = VUndefined
  /\ unusable Examples.without_asset
  /\ Current.getLatestRelease
       (Examples.env (Examples.releases [Examples.without_asset]))
       (Current.getDataFromRequest Examples.latest_plugin)
     = Normal Examples.without_asset
  /\ response (Current.listener
                 (Examples.env (Examples.releases [Examples.without_asset]))
                 Examples.latest_plugin)
     = mkResponse 500 "" [("content-type", "text/plain;charset=UTF-8")]
         (BText "TypeError: Cannot read properties of undefined (reading 'browser_download_url')")
  /\ response (PathRev.listener
                 (Examples.env (Examples.releases [Examples.without_asset]))
                 Examples.latest_plugin)
     = mkResponse 404 "Not Found" [("Content-Type", "application/json")]
         (BJson (VStr "No release asset found!")).
Proof. repeat split; reflexivity. Qed.

(** C2 (the code departs from it). The release list answers 403 with an
    error document: the current revision answers 404, keeping only the
    message, where the path-based and the query-based revisions pass the
    403 and the document on. *)
Theorem C2_upstream_status_replaced :
  up_status Examples.rate_limited = 403
  /\ response (Current.listener (Examples.env Examples.rate_limited) Examples.latest_plugin)
     = mkResponse 404 "Not Found" [("Content-Type", "application/json")]
         (BJson (VObj [ ("status", VStr "error");
                        ("message", VStr "API rate limit exceeded") ]))
  /\ response (PathRev.listener (Examples.env Examples.rate_limited) Examples.latest_plugin)
     = mkResponse 403 "OK" [("Content-Type", "application/json")]
         (BJson (VObj [ ("message", VStr "API rate limit exceeded") ]))
  /\ response (QueryRev.listener (Examples.env Examples.rate_limited) Examples.plugin_query)
     = mkResponse 403 "OK" [("Content-Type", "application/json")]
         (BJson (VObj [ ("message", VStr "API rate limit exceeded") ])).
Proof. repeat split; reflexivity. Qed.

(** In the current revision every answer of the release list other than
    200 that carries a JSON object ends in a 404. *)
Lemma upstream_error_is_404 env request listing kv :
  cache env !! href request = None ->
  Current.valid (Current.getDataFromRequest request) = true ->
  fetch env (api_releases (Current.vendor (Current.getDataFromRequest request))
               (Current.package (Current.getDataFromRequest request))) = Normal listing ->
  up_status listing <> 200 -> up_json listing = Some (VObj kv) ->
  response (Current.listener env request)
  = mkResponse 404 "Not Found" [("Content-Type", "application/json")]
      (BJson (stringify (VObj [ ("status", VStr "error");
                                ("message", default VUndefined (assoc "message" kv)) ]))).
Proof.
  intros Hmiss Hvalid Hfetch Hstatus Hjson.
  unfold Current.listener. rewrite handleRequest_valid by done.
  unfold Current.releases_of, Current.getLatestRelease, json.
  rewrite Hfetch. cbn [bind]. rewrite Hjson. cbn [bind].
  apply Z.eqb_neq in Hstatus. rewrite Hstatus. reflexivity.
Qed.

(** In the older revisions the status of the release list is the status
    of the response, for the statuses a response can be built with. *)
Lemma upstream_error_proxied env request data listing doc :
  fetch env (api_releases (PathRev.vendor data) (PathRev.package data)) = Normal listing ->
  up_json listing = Some doc -> up_status listing <> 200 ->
  200 <= up_status listing <= 599 -> null_body_status (up_status listing) = false ->
  exists o, PathRev.resolve env request data = Normal o
            /\ status (response o) = up_status listing.
Proof.
  intros Hfetch Hjson Hstatus Hrange Hnull.
  unfold PathRev.resolve, json. rewrite Hfetch. cbn [bind]. rewrite Hjson. cbn [bind].
  apply Z.eqb_neq in Hstatus. rewrite Hstatus. cbn [negb].
  rewrite getResponse_ok by done. by eexists.
Qed.

(** C3 (the code departs from it). With an empty release list the current
    revision answers 404, but the thrown string has no [message], and the
    body is the document with [status] alone. *)
Theorem C3_no_releases_message_lost :
  response (Current.listener (Examples.env (Examples.releases [])) Examples.latest_plugin)
  = mkResponse 404 "Not Found" [("Content-Type", "application/json")]
      (BJson (VObj [ ("status", VStr "error") ]))
  /\ VObj [ ("status", VStr "error") ]
     <> VObj [ ("status", VStr "error"); ("message", VStr "No releases available!") ]
  /\ response (PathRev.listener (Examples.env (Examples.releases [])) Examples.latest_plugin)
     = mkResponse 404 "Not Found" [("Content-Type", "application/json")]
         (BJson (VStr "No releases available!")).
Proof. repeat split; done. Qed.

(** The same for every 200 answer that holds no release: an empty list,
    [null], or a document that is not a list. *)
Lemma no_releases_body env request listing releases :
  cache env !! href request = None ->
  Current.valid (Current.getDataFromRequest request) = true ->
  fetch env (api_releases (Current.vendor (Current.getDataFromRequest request))
               (Current.package (Current.getDataFromRequest request))) = Normal listing ->
  up_status listing = 200 -> up_json listing = Some releases ->
  no_releases releases = true ->
  response (Current.listener env request)
  = mkResponse 404 "Not Found" [("Content-Type", "application/json")]
      (BJson (VObj [ ("status", VStr "error") ])).
Proof.
  intros Hmiss Hvalid Hfetch Hstatus Hjson Hnone.
  unfold Current.listener. rewrite handleRequest_valid by done.
  unfold Current.releases_of, Current.getLatestRelease, json.
  rewrite Hfetch. cbn [bind]. rewrite Hjson, Hstatus. cbn [bind Z.eqb Pos.eqb negb].
  rewrite Hnone. reflexivity.
Qed.

(** C8 (the code departs from it). A successful request that is not a
    download gets a 200 with [Content-Type: application/json] and the
    cache write under the request URL, but the cache header appended is
    the literal [s=maxage=10]. *)
Theorem C8_cache_control_literal :
  Current.isDownload (Current.getDataFromRequest Examples.latest_plugin) = false
  /\ status (response (Current.listener
                         (Examples.env (Examples.releases [Examples.with_asset]))
                         Examples.latest_plugin)) = 200
  /\ headers (response (Current.listener
                          (Examples.env (Examples.releases [Examples.with_asset]))
                          Examples.latest_plugin))
     = [ ("Content-Type", "application/json"); ("Cache-Control", "s=maxage=10") ]
  /\ waitUntil (Current.listener
                  (Examples.env (Examples.releases [Examples.with_asset]))
                  Examples.latest_plugin)
     = [ (href Examples.latest_plugin,
          response (Current.listener
                      (Examples.env (Examples.releases [Examples.with_asset]))
                      Examples.latest_plugin)) ]
  /\ "s=maxage=10" <> "s-maxage=10".
Proof. repeat split; done. Qed.

(** Every 200 the current revision builds itself carries that literal. *)
Lemma success_headers env request o :
  cache env !! href request = None ->
  Current.handleRequest env request = Normal o ->
  status (response o) = 200 ->
  headers (response o)
  = [ ("Content-Type", "application/json"); ("Cache-Control", "s=maxage=10") ]
  /\ waitUntil o = [ (href request, response o) ].
Proof.
  intros Hmiss Hrun H200. unfold Current.handleRequest in Hrun.
  rewrite Hmiss in Hrun.
  rewrite !getErrorResponse_ok in Hrun by (by left).
  repeat match type of Hrun with
         | context [if ?b then _ else _] =>
             destruct b; [cbn in Hrun; by simplify_eq|]
         end.
  destruct (Current.releases_of env (Current.getDataFromRequest request))
    as [data|e]; cycle 1.
  { destruct (message e) as [m|]; [|done]. cbn [bind] in Hrun.
    rewrite getErrorResponse_ok in Hrun by (by right).
    cbn in Hrun. by simplify_eq. }
  unfold Current.deliver in Hrun.
  destruct (getProp (Current.release data) "tag_name") as [tag_name|]; [|done].
  cbn [bind] in Hrun.
  destruct (fetch env _) as [file|]; [|done]. cbn [bind] in Hrun.
  destruct (negb (up_status file =? 200)).
  { rewrite getResponse_ok in Hrun by done. cbn in Hrun. by simplify_eq. }
  destruct (Current.getPayload _) as [payload|]; [|done]. cbn [bind] in Hrun.
  destruct (Current.isDownload _).
  { unfold replying in Hrun.
    destruct (redirect _ _ _) as [r|] eqn:Hr; [|done].
    apply redirect_301 in Hr as (location & _ & ->). cbn [bind] in Hrun.
    by simplify_eq. }
  rewrite getResponse_ok in Hrun by done. cbn [bind] in Hrun.
  by simplify_eq.
Qed.

End HandlerFacts.

(** * Path segments *)

Module PathFacts.
Import Js Http JsFacts Paths.

Lemma split_nonempty c s : split c s <> [].
Proof.
  destruct s as [|a s]; simpl; [done|].
  case_bool_decide; [done|]. by destruct (split c s).
Qed.

(** [split] distributes over a separator. *)
Lemma split_app c s t : split c (s +:+ String c t) = split c s ++ split c t.
Proof.
  induction s as [|a s IH].
  - change ("" +:+ String c t) with (String c t). simpl.
    by rewrite bool_decide_eq_true_2.
  - rewrite app_cons. simpl. rewrite IH. case_bool_decide; [done|].
    pose proof (split_nonempty c s). by destruct (split c s).
Qed.

Lemma split_pieces c s : Forall (fun w => mem c w = false) (split c s).
Proof.
  induction s as [|a s IH]; simpl; [by repeat constructor|].
  case_bool_decide as Hc; [by constructor|].
  destruct (split c s) as [|w ws]; [repeat constructor; simpl|].
  - by rewrite bool_decide_eq_false_2.
  - inversion IH; subst. constructor; [|done]. simpl.
    by rewrite bool_decide_eq_false_2.
Qed.

Lemma app_nil_r_str (s : string) : s +:+ "" = s.
Proof. induction s as [|a s IH]; [done|]. by rewrite app_cons, IH. Qed.

Lemma split_path c seg rest :
  mem c seg = false -> Forall (fun w => mem c w = false) rest ->
  split c (seg +:+ foldr (fun w p => String c (w +:+ p)) "" rest) = seg :: rest.
Proof.
  intros Hseg Hrest. revert seg Hseg.
  induction Hrest as [|w rest Hw _ IH]; intros seg Hseg.
  - cbn [foldr]. by rewrite app_nil_r_str, split_none.
  - cbn [foldr]. rewrite split_app, split_none by done. by rewrite IH.
Qed.

Lemma path_of_foldr segments :
  path_of segments = foldr (fun w p => String "/" (w +:+ p)) "" segments.
Proof. induction segments as [|w ws IH]; [done|]. cbn [path_of foldr]. by rewrite IH. Qed.

(** X1. The segments [getDataFromRequest] works on are never empty and
    hold no slash, whatever the pathname. *)
Theorem path_segments_are_segments (request : Request) :
  Forall segment (path_segments request).
Proof.
  unfold path_segments. apply Forall_forall. intros seg Hin.
  apply list_elem_of_filter in Hin as [Hne Hin]. split; [done|].
  pose proof (split_pieces "/" (pathname request)) as H.
  rewrite Forall_forall in H. by apply H.
Qed.

(** X2. A pathname made of segments, with or without a closing slash, is
    cut back into exactly these segments. *)
Theorem path_segments_of_path (request : Request) (segments : list string) :
  Forall segment segments ->
  pathname request = path_of segments \/ pathname request = path_of segments +:+ "/" ->
  path_segments request = segments.
Proof.
  intros Hsegs Hpath. unfold path_segments.
  assert (Forall (fun w => mem "/" w = false) segments) as Hslash.
  { eapply Forall_impl; [exact Hsegs|]. by intros w [_ ?]. }
  assert (filter (fun seg => seg <> "") segments = segments) as Hkeep.
  { clear Hpath Hslash. induction Hsegs as [|w ws [Hw _] _ IH]; [done|].
    by rewrite filter_cons_True, IH. }
  destruct segments as [|seg rest].
  { destruct Hpath as [-> | ->]; reflexivity. }
  inversion Hslash as [|? ? Hseg Hrest]; subst.
  assert (split "/" (path_of (seg :: rest)) = "" :: seg :: rest) as Hsplit.
  { cbn [path_of]. change ("/" +:+ seg +:+ path_of rest)
      with ("" +:+ String "/" (seg +:+ path_of rest)).
    rewrite split_app, path_of_foldr, split_path by done. reflexivity. }
  destruct Hpath as [-> | ->].
  - rewrite Hsplit, filter_cons_False by (by intros []). exact Hkeep.
  - change (path_of (seg :: rest) +:+ "/")
      with (path_of (seg :: rest) +:+ String "/" "").
    rewrite split_app, Hsplit, filter_app, filter_cons_False by (by intros []).
    rewrite Hkeep. cbn [split]. rewrite filter_cons_False by (by intros []).
    by rewrite filter_nil, app_nil_r.
Qed.

Lemma path_segments_of_path_witness :
  path_segments Examples.tagged_plugin = ["plugins"; "acme"; "widget"; "v3.0"].
Proof.
  apply (path_segments_of_path Examples.tagged_plugin
           ["plugins"; "acme"; "widget"; "v3.0"]).
  - repeat constructor; done.
  - by left.
Defined.

End PathFacts.

(** * The path-based parsers and the checks on their result *)

Module ParserFacts.
Import Js Http JsFacts Paths Replies PathFacts ResolverFacts.

Lemma is_str_ne (t s : string) : t <> s -> is_str (VStr t) s = false.
Proof. intros H. simpl. by rewrite bool_decide_eq_false_2. Qed.

Lemma type_of_first request t rest :
  path_segments request = t :: rest ->
  Current.type (Current.getDataFromRequest request)
  = if bool_decide (t = "plugin" \/ t = "plugins") then VStr "plugin"
    else if bool_decide (t = "theme" \/ t = "themes") then VStr "theme"
    else VStr t.
Proof.
  intros Hsegs. unfold Current.getDataFromRequest. rewrite Hsegs.
  cbn [Current.type shift fst snd].
  pose proof (path_segments_are_segments request) as Hall.
  rewrite Hsegs in Hall. inversion Hall as [|? ? [Hne _] _]; subst.
  rewrite truthy_str by done. cbn [andb].
  case_bool_decide as Hp.
  { destruct Hp as [-> | ->]; reflexivity. }
  rewrite !is_str_ne by tauto. cbn [orb].
  rewrite truthy_str by done. cbn [andb].
  case_bool_decide as Ht.
  { destruct Ht as [-> | ->]; reflexivity. }
  rewrite !is_str_ne by tauto. reflexivity.
Qed.

(** X3. The current revision takes the entity type from the first path
    segment: [plugin] and [plugins] give plugin, [theme] and [themes] give
    theme, and no other segment gives either. *)
Theorem entity_type_of_first_segment (request : Request) (t : string) (rest : list string) :
  path_segments request = t :: rest ->
  (Current.type (Current.getDataFromRequest request) = VStr "plugin"
     <-> t = "plugin" \/ t = "plugins")
  /\ (Current.type (Current.getDataFromRequest request) = VStr "theme"
     <-> t = "theme" \/ t = "themes").
Proof.
  intros Hsegs. rewrite (type_of_first request t rest Hsegs).
  case_bool_decide as Hp; [|case_bool_decide as Ht].
  - split; [tauto|]. split; [done|]. intros [-> | ->]; destruct Hp; done.
  - split; [|tauto]. split; [done|tauto].
  - split; (split; [intros [= ->]; tauto | tauto]).
Qed.

Lemma entity_type_of_first_segment_witness :
  Current.type (Current.getDataFromRequest Examples.latest_plugin) = VStr "plugin".
Proof.
  apply (entity_type_of_first_segment Examples.latest_plugin "plugins" ["acme"; "widget"]);
    [reflexivity | by right].
Defined.

Lemma reject_type env request :
  cache env !! href request = None ->
  is_str (Current.type (Current.getDataFromRequest request)) "theme" = false ->
  is_str (Current.type (Current.getDataFromRequest request)) "plugin" = false ->
  Current.handleRequest env request = Normal (reply (bad_request no_type)).
Proof.
  intros Hmiss Ht Hp. unfold Current.handleRequest. rewrite Hmiss. cbv zeta.
  rewrite Ht, Hp. reflexivity.
Qed.

(** X4. On a cache miss, the current revision answers a request whose
    first path segment is missing or is none of the four spellings with
    the 400 that names the entity type. *)
Theorem no_entity_type_is_400 (env : Env) (request : Request) :
  cache env !! href request = None ->
  (forall t, head (path_segments request) = Some t -> t ∉ entity_spellings) ->
  response (Current.listener env request) = bad_request no_type.
Proof.
  intros Hmiss Hnone. unfold Current.listener.
  rewrite reject_type; [done..| |].
  - destruct (path_segments request) as [|t rest] eqn:Hsegs.
    + unfold Current.getDataFromRequest. rewrite Hsegs. reflexivity.
    + rewrite (type_of_first request t rest Hsegs).
      specialize (Hnone t eq_refl). unfold entity_spellings in Hnone.
      rewrite !not_elem_of_cons in Hnone.
      rewrite !bool_decide_eq_false_2 by tauto. apply is_str_ne. tauto.
  - destruct (path_segments request) as [|t rest] eqn:Hsegs.
    + unfold Current.getDataFromRequest. rewrite Hsegs. reflexivity.
    + rewrite (type_of_first request t rest Hsegs).
      specialize (Hnone t eq_refl). unfold entity_spellings in Hnone.
      rewrite !not_elem_of_cons in Hnone.
      rewrite !bool_decide_eq_false_2 by tauto. apply is_str_ne. tauto.
Qed.

Lemma no_entity_type_is_400_witness :
  response (Current.listener (Examples.env Examples.not_found) Examples.plugin_query)
  = bad_request no_type.
Proof.
  apply no_entity_type_is_400; [reflexivity|]. intros t Ht. discriminate Ht.
Defined.

Lemma fields_of_segments request t V P rest :
  path_segments request = t :: V :: P :: rest ->
  Current.vendor (Current.getDataFromRequest request) = VStr V
  /\ Current.package (Current.getDataFromRequest request) = VStr P
  /\ Current.isDownload (Current.getDataFromRequest request)
     = bool_decide ("download" ∈ rest)
  /\ Current.version (Current.getDataFromRequest request)
     = (shift (if bool_decide ("download" ∈ rest) then pop rest else rest)).1.
Proof.
  intros Hsegs. unfold Current.getDataFromRequest. rewrite Hsegs. done.
Qed.

Lemma reject_vendor env request :
  cache env !! href request = None ->
  is_str (Current.type (Current.getDataFromRequest request)) "theme"
  || is_str (Current.type (Current.getDataFromRequest request)) "plugin" = true ->
  truthy (Current.vendor (Current.getDataFromRequest request)) = false ->
  Current.handleRequest env request = Normal (reply (bad_request no_vendor)).
Proof.
  intros Hmiss Ht Hv. unfold Current.handleRequest. rewrite Hmiss. cbv zeta.
  rewrite Hv. apply orb_true_iff in Ht as [-> | ->]; [done|].
  by rewrite andb_false_r.
Qed.

Lemma reject_package env request :
  cache env !! href request = None ->
  is_str (Current.type (Current.getDataFromRequest request)) "theme"
  || is_str (Current.type (Current.getDataFromRequest request)) "plugin" = true ->
  truthy (Current.vendor (Current.getDataFromRequest request)) = true ->
  truthy (Current.package (Current.getDataFromRequest request)) = false ->
  Current.handleRequest env request = Normal (reply (bad_request no_package)).
Proof.
  intros Hmiss Ht Hv Hp. unfold Current.handleRequest. rewrite Hmiss. cbv zeta.
  rewrite Hv, Hp. apply orb_true_iff in Ht as [-> | ->]; [done|].
  by rewrite andb_false_r.
Qed.

Lemma spelling_accepted request t rest :
  path_segments request = t :: rest -> t ∈ entity_spellings ->
  is_str (Current.type (Current.getDataFromRequest request)) "theme"
  || is_str (Current.type (Current.getDataFromRequest request)) "plugin" = true.
Proof.
  intros Hsegs Hin. rewrite (type_of_first request t rest Hsegs).
  unfold entity_spellings in Hin. rewrite !elem_of_cons, elem_of_nil in Hin.
  destruct Hin as [-> | [-> | [-> | [-> | []]]]]; reflexivity.
Qed.

(** X5. On a cache miss, a path that stops after the entity type gets the
    400 that names the vendor, and a path that stops after the vendor the
    400 that names the package. *)
Theorem missing_segment_is_400 (env : Env) (request : Request) (t : string) :
  cache env !! href request = None -> t ∈ entity_spellings ->
  (path_segments request = [t] ->
     response (Current.listener env request) = bad_request no_vendor)
  /\ (forall V, path_segments request = [t; V] ->
       response (Current.listener env request) = bad_request no_package).
Proof.
  intros Hmiss Hin. split.
  - intros Hsegs. unfold Current.listener. rewrite reject_vendor; [done..| |].
    + by eapply spelling_accepted.
    + unfold Current.getDataFromRequest. by rewrite Hsegs.
  - intros V Hsegs. unfold Current.listener.
    pose proof (path_segments_are_segments request) as Hall. rewrite Hsegs in Hall.
    inversion Hall as [|? ? _ Hall']; subst. inversion Hall' as [|? ? [HV _] _]; subst.
    rewrite reject_package; [done..| | |].
    + by eapply spelling_accepted.
    + unfold Current.getDataFromRequest. rewrite Hsegs. by apply truthy_str.
    + unfold Current.getDataFromRequest. by rewrite Hsegs.
Qed.

Lemma missing_segment_is_400_witness :
  response (Current.listener (Examples.env Examples.not_found) Examples.only_type)
  = bad_request no_vendor
  /\ response (Current.listener (Examples.env Examples.not_found) Examples.only_vendor)
    = bad_request no_package.
Proof.
  split.
  - apply (missing_segment_is_400 _ Examples.only_type "themes");
      [reflexivity | repeat constructor | reflexivity].
  - destruct (missing_segment_is_400 (Examples.env Examples.not_found)
                Examples.only_vendor "themes") as [_ H];
      [reflexivity | repeat constructor |].
    by apply (H "acme").
Defined.

(** X6. A request that fails one of the three checks is answered without
    a call to the remote end: the outcome is the same whatever [fetch]
    (and the URL parser) does, it is a 400, and nothing is written to the
    cache. *)
Theorem invalid_request_stays_local (f1 f2 : string -> completion Upstream)
    (p1 p2 : string -> option string)
    (c : gmap string Response) (request : Request) :
  c !! href request = None ->
  Current.valid (Current.getDataFromRequest request) = false ->
  Current.handleRequest (mkEnv f1 c p1) request
  = Current.handleRequest (mkEnv f2 c p2) request
  /\ exists message,
       Current.handleRequest (mkEnv f1 c p1) request
       = Normal (reply (bad_request message)).
Proof.
  intros Hmiss Hinvalid. unfold Current.valid in Hinvalid.
  destruct (is_str (Current.type (Current.getDataFromRequest request)) "theme"
            || is_str (Current.type (Current.getDataFromRequest request)) "plugin")
    eqn:Ht.
  - destruct (truthy (Current.vendor (Current.getDataFromRequest request))) eqn:Hv.
    + destruct (truthy (Current.package (Current.getDataFromRequest request))) eqn:Hp;
        [done|].
      rewrite !reject_package by done. eauto.
    + rewrite !reject_vendor by done. eauto.
  - apply orb_false_iff in Ht as [Ht Hp]. rewrite !reject_type by done. eauto.
Qed.

Lemma invalid_request_stays_local_witness :
  Current.handleRequest (Examples.env Examples.not_found) Examples.only_type
  = Current.handleRequest (Examples.env Examples.rate_limited) Examples.only_type.
Proof.
  apply (invalid_request_stays_local _ _ Examples.parser Examples.parser ∅
           Examples.only_type); reflexivity.
Defined.

Lemma or_else_falsy a b : truthy a = false -> or_else a b = b.
Proof. intros H. unfold or_else. by rewrite H. Qed.

Lemma derived_fields request :
  Current.slug (Current.getDataFromRequest request)
  = or_else (get "slug" request) (Current.package (Current.getDataFromRequest request))
  /\ Current.file (Current.getDataFromRequest request)
    = or_else (get "file" request)
        (if is_str (Current.type (Current.getDataFromRequest request)) "theme"
         then VStr "style.css"
         else VStr (toString (Current.package (Current.getDataFromRequest request))
                    +:+ ".php")).
Proof. split; reflexivity. Qed.

(** X7. Without a [slug] and a [file] parameter (or with empty ones), the
    slug is the package name and the file is [style.css] for a theme and
    the package name with [.php] for anything else. *)
Theorem default_slug_and_file (request : Request) (t V P : string) (rest : list string) :
  path_segments request = t :: V :: P :: rest ->
  truthy (get "slug" request) = false -> truthy (get "file" request) = false ->
  Current.slug (Current.getDataFromRequest request) = VStr P
  /\ (t = "theme" \/ t = "themes" ->
      Current.file (Current.getDataFromRequest request) = VStr "style.css"
      /\ Current.basename (Current.getDataFromRequest request) = P +:+ "/style.css")
  /\ (~ (t = "theme" \/ t = "themes") ->
      Current.file (Current.getDataFromRequest request) = VStr (P +:+ ".php")
      /\ Current.basename (Current.getDataFromRequest request)
         = P +:+ "/" +:+ P +:+ ".php").
Proof.
  intros Hsegs Hslug Hfile.
  destruct (derived_fields request) as [Es Ef].
  destruct (fields_of_segments request t V P rest Hsegs) as (_ & HP & _).
  rewrite or_else_falsy, HP in Es by done.
  rewrite or_else_falsy, HP, (type_of_first request t _ Hsegs) in Ef by done.
  assert (Current.basename (Current.getDataFromRequest request)
          = toString (Current.slug (Current.getDataFromRequest request)) +:+ "/"
            +:+ toString (Current.file (Current.getDataFromRequest request))) as Eb
    by reflexivity.
  rewrite Es in Eb. split; [done|]. split.
  - intros Ht. assert (Current.file (Current.getDataFromRequest request) = VStr "style.css") as E.
    { rewrite Ef. case_bool_decide as Hp; [by destruct Ht as [-> | ->], Hp|].
      by rewrite bool_decide_eq_true_2. }
    by rewrite Eb, E.
  - intros Ht. assert (Current.file (Current.getDataFromRequest request) = VStr (P +:+ ".php")) as E.
    { rewrite Ef. case_bool_decide as Hp; [done|].
      rewrite bool_decide_eq_false_2 by done. rewrite is_str_ne; [done|tauto]. }
    by rewrite Eb, E.
Qed.

Lemma default_slug_and_file_witness :
  Current.slug (Current.getDataFromRequest Examples.latest_plugin) = VStr "widget"
  /\ Current.file (Current.getDataFromRequest Examples.latest_plugin) = VStr "widget.php"
  /\ Current.basename (Current.getDataFromRequest Examples.latest_plugin)
     = "widget/widget.php".
Proof.
  destruct (default_slug_and_file Examples.latest_plugin "plugins" "acme" "widget" [])
    as (Hs & _ & Hf); [reflexivity..|].
  split; [exact Hs|]. apply Hf. by intros [|].
Defined.

(** X8. How the segments after the package are read: a lone segment is
    the version unless it is [download]; [download] closing the path asks
    for the archive; and when [download] is followed by another segment,
    it is that last segment that is dropped and [download] is taken for
    the version. *)
Theorem version_and_download (request : Request) (t V P : string) :
  (path_segments request = [t; V; P] ->
     Current.version (Current.getDataFromRequest request) = VUndefined
     /\ Current.isDownload (Current.getDataFromRequest request) = false)
  /\ (forall ver, ver <> "download" -> path_segments request = [t; V; P; ver] ->
       Current.version (Current.getDataFromRequest request) = VStr ver
       /\ Current.isDownload (Current.getDataFromRequest request) = false)
  /\ (path_segments request = [t; V; P; "download"] ->
       Current.version (Current.getDataFromRequest request) = VUndefined
       /\ Current.isDownload (Current.getDataFromRequest request) = true)
  /\ (forall ver, path_segments request = [t; V; P; ver; "download"] ->
       Current.version (Current.getDataFromRequest request) = VStr ver
       /\ Current.isDownload (Current.getDataFromRequest request) = true)
  /\ (forall x, path_segments request = [t; V; P; "download"; x] ->
       Current.version (Current.getDataFromRequest request) = VStr "download"
       /\ Current.isDownload (Current.getDataFromRequest request) = true).
Proof.
  split; [|split; [|split; [|split]]].
  - intros Hsegs.
    destruct (fields_of_segments request t V P _ Hsegs) as (_ & _ & -> & ->). done.
  - intros ver Hver Hsegs.
    destruct (fields_of_segments request t V P _ Hsegs) as (_ & _ & -> & ->).
    rewrite bool_decide_eq_false_2; [done|].
    rewrite elem_of_cons, elem_of_nil. intros [|[]]. done.
  - intros Hsegs.
    destruct (fields_of_segments request t V P _ Hsegs) as (_ & _ & -> & ->). done.
  - intros ver Hsegs.
    destruct (fields_of_segments request t V P _ Hsegs) as (_ & _ & -> & ->).
    rewrite bool_decide_eq_true_2; [done|]. by repeat constructor.
  - intros x Hsegs.
    destruct (fields_of_segments request t V P _ Hsegs) as (_ & _ & -> & ->).
    rewrite bool_decide_eq_true_2; [done|]. by repeat constructor.
Qed.

Lemma version_and_download_witness :
  Current.version (Current.getDataFromRequest Examples.tagged_plugin) = VStr "v3.0"
  /\ Current.isDownload (Current.getDataFromRequest Examples.tagged_plugin) = false.
Proof.
  destruct (version_and_download Examples.tagged_plugin "plugins" "acme" "widget")
    as (_ & H & _).
  apply (H "v3.0"); [done | reflexivity].
Defined.

(** *** The path-based revision *)

Lemma slice_snoc s c : slice_0_m1 (s +:+ String c "") = s.
Proof.
  induction s as [|a s IH]; [done|].
  rewrite app_cons. cbn [slice_0_m1]. rewrite IH. by destruct s.
Qed.

Lemma slice_inv t : t <> "" -> exists c, t = slice_0_m1 t +:+ String c "".
Proof.
  induction t as [|a t IH]; [done|]. intros _.
  destruct t as [|b t]; [by exists a|].
  destruct IH as [c Hc]; [done|]. exists c.
  change (slice_0_m1 (String a (String b t)))
    with (String a (slice_0_m1 (String b t))).
  rewrite app_cons. by rewrite <- Hc.
Qed.

Lemma old_type_of_first request t rest :
  path_segments request = t :: rest ->
  PathRev.type (PathRev.getDataFromRequest request) = VStr (slice_0_m1 t).
Proof.
  intros Hsegs.
  pose proof (path_segments_are_segments request) as Hall.
  rewrite Hsegs in Hall. inversion Hall as [|? ? [Hne _] _]; subst.
  unfold PathRev.getDataFromRequest. rewrite Hsegs. cbn [PathRev.type].
  change (at_index (t :: rest) 0) with (VStr t).
  by rewrite truthy_str.
Qed.

(** X9. The path-based revision takes the first segment without its last
    character for the entity type: it accepts [plugin] and [theme]
    followed by any one character, and answers the singular spellings
    [plugin] and [theme] with the 400 that names the entity type. *)
Theorem old_entity_type (env : Env) (request : Request) (t : string) (rest : list string) :
  path_segments request = t :: rest ->
  (PathRev.type (PathRev.getDataFromRequest request) = VStr "plugin"
     <-> exists c, t = "plugin" +:+ String c "")
  /\ (PathRev.type (PathRev.getDataFromRequest request) = VStr "theme"
     <-> exists c, t = "theme" +:+ String c "")
  /\ (cache env !! href request = None -> t = "plugin" \/ t = "theme" ->
      response (PathRev.listener env request) = bad_request no_type).
Proof.
  intros Hsegs. rewrite (old_type_of_first request t rest Hsegs).
  pose proof (path_segments_are_segments request) as Hall.
  rewrite Hsegs in Hall. inversion Hall as [|? ? [Hne _] _]; subst.
  split; [|split].
  - split.
    + intros [= E]. destruct (slice_inv t Hne) as [c Hc]. exists c. by rewrite <- E.
    + intros [c ->]. by rewrite slice_snoc.
  - split.
    + intros [= E]. destruct (slice_inv t Hne) as [c Hc]. exists c. by rewrite <- E.
    + intros [c ->]. by rewrite slice_snoc.
  - intros Hmiss Ht. unfold PathRev.listener, PathRev.handleRequest.
    rewrite Hmiss. cbv zeta. rewrite (old_type_of_first request t rest Hsegs).
    by destruct Ht as [-> | ->].
Qed.

Lemma old_entity_type_witness :
  PathRev.type (PathRev.getDataFromRequest Examples.latest_plugin) = VStr "plugin"
  /\ response (PathRev.listener (Examples.env Examples.not_found) Examples.singular_plugin)
     = bad_request no_type.
Proof.
  split.
  - apply (old_entity_type (Examples.env Examples.not_found) Examples.latest_plugin
             "plugins" ["acme"; "widget"]); [reflexivity|]. by exists "s"%char.
  - apply (old_entity_type (Examples.env Examples.not_found) Examples.singular_plugin
             "plugin" ["acme"; "widget"]); [reflexivity.. | by left].
Defined.

End ParserFacts.

(** * More on the header parser *)

Module HeaderValueFacts.
Import Js Headers JsFacts HeadersFacts.

Lemma dot_star_one_line s : has_line_terminator (dot_star s) = false.
Proof.
  induction s as [|c s IH]; simpl; [done|].
  destruct (is_line_terminator c) eqn:Hc; [done|]. simpl. by rewrite Hc.
Qed.

Lemma trimStart_one_line s :
  has_line_terminator s = false -> has_line_terminator (trimStart s) = false.
Proof.
  induction s as [|c s IH]; simpl; [done|]. intros H.
  apply orb_false_iff in H as [Hc Hs].
  destruct (is_white_space c); [by apply IH|]. simpl. by rewrite Hc.
Qed.

Lemma trimEnd_one_line s :
  has_line_terminator s = false -> has_line_terminator (trimEnd s) = false.
Proof.
  induction s as [|c s IH]; simpl; [done|]. intros H.
  apply orb_false_iff in H as [Hc Hs]. specialize (IH Hs).
  destruct (trimEnd s) as [|a r].
  - destruct (is_white_space c); simpl; [done|]. by rewrite Hc.
  - simpl in *. by rewrite Hc.
Qed.

(** X10. No value of the header map spans lines: none holds a line feed
    or a carriage return. *)
Theorem header_values_on_one_line (text : string) :
  map_Forall (fun _ v => has_line_terminator v = false) (getFileHeaders text).
Proof.
  intros name v Hv. rewrite getFileHeaders_lookup in Hv.
  case_bool_decide; [|done].
  destruct (exec (name +:+ ":") text) as [m1|] eqn:E; [|done].
  injection Hv as <-. apply trimEnd_one_line, trimStart_one_line.
  clear -E. induction text as [|c text IH]; cbn [exec] in E.
  - destruct (String.prefix _ _); [|done]. injection E as <-. by destruct (String.length _).
  - destruct (String.prefix _ _); [|by apply IH].
    injection E as <-. apply dot_star_one_line.
Qed.

Lemma prefix_mem c lit s :
  String.prefix lit s = true -> mem c lit = true -> mem c s = true.
Proof.
  revert s. induction lit as [|a lit IH]; intros s Hpre Hmem; [done|].
  destruct s as [|b s]; simpl in Hpre; [done|].
  destruct (ascii_dec a b) as [->|]; [|done]. simpl in *.
  destruct (bool_decide (b = c)); [done|]. simpl in *. by apply IH.
Qed.

Lemma exec_without c lit text :
  mem c lit = true -> mem c text = false -> exec lit text = None.
Proof.
  intros Hlit. induction text as [|a text IH]; intros Htext; cbn [exec].
  - destruct (String.prefix lit "") eqn:Hpre; [|done].
    by rewrite (prefix_mem c lit "" Hpre Hlit) in Htext.
  - destruct (String.prefix lit (String a text)) eqn:Hpre.
    + by rewrite (prefix_mem c lit _ Hpre Hlit) in Htext.
    + simpl in Htext. apply orb_false_iff in Htext as [_ Htext]. by apply IH.
Qed.

(** X11. A text without a colon, the empty text among them, gives the
    empty header map. *)
Theorem no_colon_no_header (text : string) :
  mem ":" text = false -> getFileHeaders text = ∅.
Proof.
  intros Hnone. apply map_eq. intros name.
  rewrite getFileHeaders_lookup, lookup_empty.
  case_bool_decide; [|done].
  rewrite (exec_without ":" (name +:+ ":") text); [done| |done].
  rewrite mem_app. simpl. by rewrite orb_true_r.
Qed.

Lemma no_colon_no_header_witness :
  getFileHeaders "<?php echo 1;" = ∅.
Proof. by apply no_colon_no_header. Defined.

End HeaderValueFacts.

(** * The payload *)

Module PayloadFacts.
Import Js Http JsFacts ResolverFacts.

Ltac run_payload H :=
  repeat match type of H with
         | context [bind ?c _] =>
             let x := fresh "x" in
             destruct c as [x|] eqn:?; cbn [bind] in H; [|discriminate H]
         end;
  injection H as <-.

(** X12. In the three revisions the payload of a plugin holds its
    basename, and the payload of anything else has no [basename]. *)
Theorem basename_for_plugins_only :
  (forall data payload, Current.getPayload data = Normal payload ->
     optProp payload "basename"
     = if is_str (Current.type data) "plugin"
       then VStr (Current.basename data) else VUndefined)
  /\ (forall data payload, PathRev.getPayload data = Normal payload ->
     optProp payload "basename"
     = if is_str (PathRev.type data) "plugin"
       then VStr (PathRev.basename data) else VUndefined)
  /\ (forall data payload, QueryRev.getPayload data = Normal payload ->
     optProp payload "basename"
     = if QueryRev.isPlugin data
       then VStr (QueryRev.basename data) else VUndefined).
Proof.
  split; [|split]; intros data payload H.
  - unfold Current.getPayload in H. run_payload H.
    by destruct (is_str (Current.type data) "plugin").
  - unfold PathRev.getPayload in H. run_payload H.
    by destruct (is_str (PathRev.type data) "plugin").
  - unfold QueryRev.getPayload in H. run_payload H.
    by destruct (QueryRev.isPlugin data).
Qed.

Lemma basename_for_plugins_only_witness :
  exists payload,
    Current.getPayload Examples.widget_data = Normal payload
    /\ optProp payload "basename" = VStr "widget/widget.php".
Proof.
  eexists. split; [reflexivity|].
  destruct basename_for_plugins_only as (H & _ & _).
  exact (H Examples.widget_data _ eq_refl).
Defined.

Lemma getProp_total v k k' x :
  getProp v k = Normal x -> exists y, getProp v k' = Normal y.
Proof. destruct v; simpl; intros H; try discriminate H; eauto. Qed.

Lemma asset_list_assets release assets :
  asset_list release = Some assets -> getProp release "assets" = Normal (VArr assets).
Proof.
  unfold asset_list. destruct (getProp release "assets") as [[]|]; intros H; by simplify_eq.
Qed.

(** X14. [getPayload] takes the download address from the first asset of
    the release: with an empty asset list it throws the [TypeError] of a
    read on [undefined], and with an object for first asset the payload
    holds its [browser_download_url]. *)
Theorem download_is_first_asset (data : Current.Data) (latest : value) (assets : list value) :
  getProp (Current.latestRelease data) "tag_name" = Normal latest ->
  asset_list (Current.release data) = Some assets ->
  (assets = [] ->
     Current.getPayload data
     = TypeError "Cannot read properties of undefined (reading 'browser_download_url')")
  /\ (forall kv rest, assets = VObj kv :: rest ->
       exists payload,
         Current.getPayload data = Normal payload
         /\ optProp payload "download"
            = default VUndefined (assoc "browser_download_url" kv)
         /\ optProp (optProp payload "version") "latest" = latest).
Proof.
  intros Hlatest Hassets. apply asset_list_assets in Hassets.
  destruct (getProp_total _ _ "published_at" _ Hassets) as [published Hpub].
  unfold Current.getPayload. rewrite Hlatest, Hpub, Hassets. cbn [bind].
  split.
  - by intros ->.
  - intros kv rest ->. cbn [getFirst head default bind getProp].
    eexists. split; [reflexivity|]. split; reflexivity.
Qed.

Lemma download_is_first_asset_witness :
  exists payload,
    Current.getPayload Examples.widget_data = Normal payload
    /\ optProp payload "download"
       = VStr "https://github.com/acme/widget/releases/download/v2.0/widget.zip"
    /\ optProp (optProp payload "version") "latest" = VStr "v2.0".
Proof.
  destruct (download_is_first_asset Examples.widget_data (VStr "v2.0")
              [ VObj [ ("browser_download_url",
                        VStr "https://github.com/acme/widget/releases/download/v2.0/widget.zip") ] ]
              eq_refl eq_refl) as [_ H].
  exact (H _ [] eq_refl).
Defined.

(** Reading a property of a serialised object: an entry under another
    name, or with the value [undefined], is passed over. *)
Lemma stringify_skip k k' v kv :
  k' <> k \/ v = VUndefined ->
  optProp (stringify (VObj ((k', v) :: kv))) k = optProp (stringify (VObj kv)) k.
Proof.
  intros [Hne | ->]; [|done].
  destruct v; simpl; rewrite ?bool_decide_eq_false_2 by done; done.
Qed.

Lemma stringify_here k v kv :
  v <> VUndefined ->
  optProp (stringify (VObj ((k, v) :: kv))) k = stringify v.
Proof.
  intros Hv. destruct v; simpl; rewrite ?bool_decide_eq_true_2 by done; done.
Qed.

(** [fileHeaders[name] || ''] *)
Lemma header_or_empty (fh : gmap string string) name :
  or_else (Headers.header fh name) (VStr "") = VStr (default "" (fh !! name)).
Proof.
  unfold Headers.header, or_else. destruct (fh !! name) as [v|]; [|done].
  simpl. case_bool_decide; by subst.
Qed.

(** X13. In the document the current revision serialises, the fields
    read from headers with a fallback are always strings, empty when the
    header is missing or empty; [name] has no fallback and is left out of
    the document when its header is missing. *)
Theorem header_fields_of_payload (data : Current.Data) (payload : value) :
  Current.getPayload data = Normal payload ->
  let fh := Current.fileHeaders data in
  let doc := stringify payload in
  optProp doc "description" = VStr (default "" (fh !! "Description"))
  /\ optProp (optProp doc "author") "name" = VStr (default "" (fh !! "Author"))
  /\ optProp (optProp doc "author") "url" = VStr (default "" (fh !! "Author URI"))
  /\ optProp (optProp doc "requires") "wp" = VStr (default "" (fh !! "Requires at least"))
  /\ optProp (optProp doc "requires") "php" = VStr (default "" (fh !! "Requires PHP"))
  /\ optProp (optProp doc "tested") "wp" = VStr (default "" (fh !! "Tested up to"))
  /\ optProp doc "name"
     = Headers.header fh (if is_str (Current.type data) "theme"
                          then "Theme Name" else "Plugin Name").
Proof.
  intros H fh doc. subst doc. unfold Current.getPayload in H. run_payload H.
  fold fh. rewrite !header_or_empty.
  repeat split.
  - rewrite !stringify_skip by (by left). by rewrite stringify_here.
  - rewrite !(stringify_skip "author") by (by left).
    rewrite stringify_here by done. reflexivity.
  - rewrite !(stringify_skip "author") by (by left).
    rewrite stringify_here by done. reflexivity.
  - rewrite !(stringify_skip "requires") by (by left).
    rewrite stringify_here by done. reflexivity.
  - rewrite !(stringify_skip "requires") by (by left).
    rewrite stringify_here by done. reflexivity.
  - rewrite !(stringify_skip "tested") by (by left).
    rewrite stringify_here by done. reflexivity.
  - assert (forall name, Headers.header fh name = VUndefined
                         \/ exists v, Headers.header fh name = VStr v) as Hcases.
    { intros name. unfold Headers.header. destruct (fh !! name); eauto. }
    destruct (is_str (Current.type data) "theme");
      [destruct (Hcases "Theme Name") as [-> | [v ->]]
      |destruct (Hcases "Plugin Name") as [-> | [v ->]]];
      try (by rewrite stringify_here);
      rewrite stringify_skip by (by right);
      rewrite !stringify_skip by (by left);
      destruct (is_str (Current.type data) "plugin"); cbn [app];
      rewrite ?stringify_skip by (by left); reflexivity.
Qed.

Lemma header_fields_of_payload_witness :
  exists payload,
    Current.getPayload Examples.widget_data = Normal payload
    /\ optProp (stringify payload) "description" = VStr ""
    /\ optProp (stringify payload) "name" = VStr "Widget".
Proof.
  eexists. split; [reflexivity|].
  destruct (header_fields_of_payload Examples.widget_data _ eq_refl)
    as (Hd & _ & _ & _ & _ & _ & Hn).
  split; [exact Hd | exact Hn].
Defined.

End PayloadFacts.

(** * The current revision from the release list to the response *)

Module PipelineFacts.
Import Js Http JsFacts Replies ResolverFacts HandlerFacts PayloadFacts.

Section FirstUsable.
Variable env : Env.
Variable request : Request.
Variable listing : Upstream.
Variable before after : list value.
Variable release : value.
Variable first_asset : list (string * value).
Variable more_assets : list value.
Variable tag : value.

Local Abbreviation data0 := (Current.getDataFromRequest request).

Hypothesis miss : cache env !! href request = None.
Hypothesis checked : Current.valid data0 = true.
Hypothesis answered :
  fetch env (api_releases (Current.vendor data0) (Current.package data0)) = Normal listing.
Hypothesis ok : up_status listing = 200.
Hypothesis listed : up_json listing = Some (VArr (before ++ release :: after)).
Hypothesis skipped : Forall unusable before.
Hypothesis assets : asset_list release = Some (VObj first_asset :: more_assets).
Hypothesis tagged : getProp release "tag_name" = Normal tag.

Lemma first_usable : usable release.
Proof. by exists (VObj first_asset), more_assets. Qed.

Lemma latest_is_first_usable : Current.getLatestRelease env data0 = Normal release.
Proof.
  eapply getLatestRelease_first_usable; eauto using first_usable.
Qed.

Lemma releases_without_version :
  truthy (Current.version data0) = false ->
  Current.releases_of env data0 = Normal (Current.set_releases release release data0).
Proof.
  intros Hv. unfold Current.releases_of.
  rewrite latest_is_first_usable. cbn [bind]. by rewrite Hv.
Qed.

Lemma handled_without_version :
  truthy (Current.version data0) = false ->
  Current.handleRequest env request
  = Current.deliver env request (Current.set_releases release release data0).
Proof.
  intros Hv. by rewrite handleRequest_valid, releases_without_version.
Qed.

(** X15. No version asked, a first usable release in the list, and the
    main file not served with a 200: the answer is a 404 whose body is the
    text naming the entity type and the address of the file, and nothing
    is written to the cache. *)
Theorem missing_file_is_404 (answer : Upstream) :
  truthy (Current.version data0) = false ->
  fetch env (raw_file (Current.vendor data0) (Current.package data0) tag
               (Current.file data0)) = Normal answer ->
  up_status answer <> 200 ->
  Current.listener env request
  = reply (not_found_text
             ("Unable to fetch " +:+ toString (Current.type data0) +:+ " file: "
              +:+ raw_file (Current.vendor data0) (Current.package data0) tag
                    (Current.file data0))).
Proof.
  intros Hv Hfile Hstatus. unfold Current.listener.
  rewrite handled_without_version by done. unfold Current.deliver.
  cbn [Current.release Current.vendor Current.package Current.file Current.type
       Current.set_releases].
  rewrite tagged. cbn [bind]. rewrite Hfile. cbn [bind].
  apply Z.eqb_neq in Hstatus. rewrite Hstatus. reflexivity.
Qed.

Lemma payload_of_first_usable (answer : Upstream) :
  exists payload,
    Current.getPayload
      (Current.set_fileHeaders (Headers.getFileHeaders (up_text answer))
         (Current.set_releases release release data0)) = Normal payload
    /\ payload <> VUndefined
    /\ download payload = default VUndefined (assoc "browser_download_url" first_asset)
    /\ optProp (optProp payload "version") "latest" = tag
    /\ optProp payload "slug" = Current.slug data0
    /\ optProp payload "type" = Current.type data0.
Proof.
  destruct (getProp_total _ _ "published_at" _ (asset_list_assets _ _ assets))
    as [published Hpub].
  unfold Current.getPayload.
  cbn [Current.release Current.latestRelease Current.set_fileHeaders
       Current.set_releases Current.type Current.slug Current.basename
       Current.fileHeaders].
  rewrite tagged, Hpub, (asset_list_assets _ _ assets).
  cbn [bind getFirst head default getProp].
  eexists. split; [reflexivity|]. repeat split; done.
Qed.

(** X16. No version asked, a first usable release whose first asset is
    an object, the main file served, and [download] in the path. When the
    [browser_download_url] of that asset, converted to a string, parses as
    a URL, the answer is a 301 whose [Location] is the serialised URL;
    when it does not parse (a missing or relative address),
    [Response.redirect] throws and the listener answers 500. Nothing is
    written to the cache either way. *)
Theorem download_is_redirect (answer : Upstream) :
  truthy (Current.version data0) = false ->
  fetch env (raw_file (Current.vendor data0) (Current.package data0) tag
               (Current.file data0)) = Normal answer ->
  up_status answer = 200 ->
  Current.isDownload data0 = true ->
  (forall location,
     parse_url env (toString (default VUndefined
                                (assoc "browser_download_url" first_asset)))
     = Some location ->
     Current.listener env request
     = reply (mkResponse 301 "" [("Location", location)] BNone))
  /\ (parse_url env (toString (default VUndefined
                                 (assoc "browser_download_url" first_asset)))
      = None ->
      status (response (Current.listener env request)) = 500
      /\ waitUntil (Current.listener env request) = []).
Proof.
  intros Hv Hfile Hstatus Hdl.
  assert (Current.handleRequest env request
          = replying (redirect (parse_url env)
                        (default VUndefined (assoc "browser_download_url" first_asset))
                        301)) as E.
  { rewrite handled_without_version by done. unfold Current.deliver.
    cbn [Current.release Current.vendor Current.package Current.file Current.type
         Current.set_releases].
    rewrite tagged. cbn [bind]. rewrite Hfile. cbn [bind]. rewrite Hstatus.
    cbn [Z.eqb Pos.eqb negb].
    destruct (payload_of_first_usable answer) as (payload & -> & _ & Hd & _).
    cbn [bind Current.isDownload Current.set_fileHeaders Current.set_releases].
    by rewrite Hdl, Hd. }
  unfold Current.listener. rewrite E. unfold redirect. split.
  - by intros location ->.
  - by intros ->.
Qed.

(** X17. The same without [download]: the answer is a 200 whose body is
    the serialised payload, with the release tag for latest version, the
    first asset's address for download, and the slug and type of the
    request; that response is the one handed to the cache under the
    request URL. *)
Theorem success_is_payload (answer : Upstream) :
  truthy (Current.version data0) = false ->
  fetch env (raw_file (Current.vendor data0) (Current.package data0) tag
               (Current.file data0)) = Normal answer ->
  up_status answer = 200 ->
  Current.isDownload data0 = false ->
  exists payload,
    Current.getPayload
      (Current.set_fileHeaders (Headers.getFileHeaders (up_text answer))
         (Current.set_releases release release data0)) = Normal payload
    /\ download payload = default VUndefined (assoc "browser_download_url" first_asset)
    /\ optProp (optProp payload "version") "latest" = tag
    /\ optProp payload "slug" = Current.slug data0
    /\ optProp payload "type" = Current.type data0
    /\ response (Current.listener env request)
       = mkResponse 200 "OK"
           [ ("Content-Type", "application/json"); ("Cache-Control", "s=maxage=10") ]
           (BJson (stringify payload))
    /\ waitUntil (Current.listener env request)
       = [ (href request, response (Current.listener env request)) ].
Proof.
  intros Hv Hfile Hstatus Hdl.
  destruct (payload_of_first_usable answer) as (payload & Hp & Hdef & Hd & Hl & Hs & Ht).
  exists payload. repeat (split; [done|]).
  unfold Current.listener.
  rewrite handled_without_version by done. unfold Current.deliver.
  cbn [Current.release Current.vendor Current.package Current.file Current.type
       Current.set_releases].
  rewrite tagged. cbn [bind]. rewrite Hfile. cbn [bind]. rewrite Hstatus.
  cbn [Z.eqb Pos.eqb negb]. rewrite Hp.
  cbn [bind Current.isDownload Current.set_fileHeaders Current.set_releases].
  rewrite Hdl, getResponse_ok by done. cbn [bind respondWith].
  by destruct payload.
Qed.

(** X18. A version asked, and the tag lookup answered with another status
    than 200 and a JSON object: the answer is a 404 whose message is the
    [message] of that object, whatever the status was. *)
Theorem missing_tag_is_404 (v : string) (answer : Upstream) (kv : list (string * value)) :
  Current.version data0 = VStr v -> v <> "" ->
  fetch env (Current.api_release_tag (Current.vendor data0) (Current.package data0)
               (VStr v)) = Normal answer ->
  up_status answer <> 200 -> up_json answer = Some (VObj kv) ->
  Current.listener env request
  = reply (not_found_error (default VUndefined (assoc "message" kv))).
Proof.
  intros Hv Hne Hfetch Hstatus Hjson. unfold Current.listener.
  rewrite handleRequest_valid by done. unfold Current.releases_of.
  rewrite latest_is_first_usable. cbn [bind]. rewrite Hv, truthy_str by done.
  unfold Current.getRelease, json. rewrite Hv, Hfetch. cbn [bind].
  rewrite Hjson. cbn [bind]. apply Z.eqb_neq in Hstatus. rewrite Hstatus.
  reflexivity.
Qed.

End FirstUsable.

Lemma missing_file_is_404_witness :
  Current.listener (Examples.env (Examples.releases [Examples.with_asset]))
    Examples.missing_file_plugin
  = reply (not_found_text
             "Unable to fetch plugin file: https://raw.githubusercontent.com/acme/widget/v2.0/absent.php").
Proof.
  apply (missing_file_is_404 (Examples.env (Examples.releases [Examples.with_asset]))
           Examples.missing_file_plugin (Examples.releases [Examples.with_asset])
           [] [] Examples.with_asset Examples.zip [] (VStr "v2.0"))
    with (answer := Examples.not_found);
    try reflexivity; try done.
Defined.

Lemma download_is_redirect_witness :
  Current.listener (Examples.env (Examples.releases [Examples.with_asset]))
    Examples.download_plugin
  = reply (mkResponse 301 ""
             [("Location", "https://github.com/acme/widget/releases/download/v2.0/widget.zip")]
             BNone).
Proof.
  destruct (download_is_redirect (Examples.env (Examples.releases [Examples.with_asset]))
              Examples.download_plugin (Examples.releases [Examples.with_asset])
              [] [] Examples.with_asset Examples.zip [] (VStr "v2.0")
              eq_refl eq_refl eq_refl eq_refl eq_refl (List.Forall_nil _) eq_refl eq_refl
              (mkUpstream 200 None Examples.widget_php)
              eq_refl eq_refl eq_refl eq_refl) as [H _].
  by apply H.
Defined.

Lemma success_is_payload_witness :
  exists payload,
    download payload
    = VStr "https://github.com/acme/widget/releases/download/v2.0/widget.zip"
    /\ status (response (Current.listener
                           (Examples.env (Examples.releases [Examples.with_asset]))
                           Examples.latest_plugin)) = 200
    /\ body (response (Current.listener
                         (Examples.env (Examples.releases [Examples.with_asset]))
                         Examples.latest_plugin)) = BJson (stringify payload).
Proof.
  destruct (success_is_payload (Examples.env (Examples.releases [Examples.with_asset]))
              Examples.latest_plugin (Examples.releases [Examples.with_asset])
              [] [] Examples.with_asset Examples.zip [] (VStr "v2.0")
              eq_refl eq_refl eq_refl eq_refl eq_refl (List.Forall_nil _) eq_refl eq_refl
              (mkUpstream 200 None Examples.widget_php) eq_refl eq_refl eq_refl eq_refl)
    as (payload & _ & Hd & _ & _ & _ & Hr & _).
  exists payload. split; [exact Hd|]. by rewrite Hr.
Defined.

Lemma missing_tag_is_404_witness :
  Current.listener (Examples.env (Examples.releases [Examples.with_asset]))
    Examples.missing_tag_plugin
  = reply (not_found_error (VStr "Not Found")).
Proof.
  apply (missing_tag_is_404 (Examples.env (Examples.releases [Examples.with_asset]))
           Examples.missing_tag_plugin (Examples.releases [Examples.with_asset])
           [] [] Examples.with_asset Examples.zip [])
    with (v := "v9.9") (answer := Examples.not_found) (kv := [("message", VStr "Not Found")]);
    try reflexivity; try done.
Defined.

End PipelineFacts.

(** * What a request can end in, and what reaches the cache *)

Module OutcomeFacts.
Import Js Http JsFacts Replies ResolverFacts HandlerFacts Cache.

(** Membership in a list of literals. *)
Ltac among := repeat first [apply list_elem_of_here | apply list_elem_of_further].

Lemma replying_reply c o :
  replying c = Normal o -> exists r, c = Normal r /\ o = reply r.
Proof. destruct c as [r|]; [|done]. intros [= <-]. eauto. Qed.

Lemma getResponse_status payload code r :
  getResponse payload code = Normal r -> status r = code.
Proof.
  unfold getResponse, newResponse.
  destruct (_ || _); [done|]. destruct (_ && _); [done|]. by intros [= <-].
Qed.

Lemma current_outcome env request o :
  cache env !! href request = None ->
  Current.handleRequest env request = Normal o ->
  (status (response o) ∈ [301; 400; 404] /\ waitUntil o = [])
  \/ (status (response o) = 200 /\ waitUntil o = [(href request, response o)]).
Proof.
  intros Hmiss Hrun. unfold Current.handleRequest in Hrun.
  rewrite Hmiss in Hrun.
  assert (forall c code, replying c = Normal o ->
            (forall r, c = Normal r -> status r = code) -> code ∈ [301; 400; 404] ->
            status (response o) ∈ [301; 400; 404] /\ waitUntil o = []) as Hreply.
  { intros c code Hc Hstatus Hin. apply replying_reply in Hc as (r & -> & ->).
    cbn [reply response waitUntil]. by rewrite (Hstatus r eq_refl). }
  repeat match type of Hrun with
         | (if ?b then _ else _) = _ =>
             destruct b;
             [left; eapply Hreply;
              [exact Hrun | intros r; apply getResponse_status | among]|]
         end.
  destruct (Current.releases_of env (Current.getDataFromRequest request))
    as [data|e]; cycle 1.
  { destruct (message e) as [m|]; [|done]. cbn [bind] in Hrun.
    left. eapply Hreply; [exact Hrun | intros r; apply getResponse_status | among]. }
  unfold Current.deliver in Hrun.
  destruct (getProp (Current.release data) "tag_name") as [tag_name|]; [|done].
  cbn [bind] in Hrun.
  destruct (fetch env _) as [file|]; [|done]. cbn [bind] in Hrun.
  destruct (negb (up_status file =? 200)).
  { left. eapply Hreply; [exact Hrun | intros r; apply getResponse_status | among]. }
  destruct (Current.getPayload _) as [payload|]; [|done]. cbn [bind] in Hrun.
  destruct (Current.isDownload _).
  { left. eapply Hreply; [exact Hrun | | among].
    intros r Hr. apply redirect_301 in Hr as (location & _ & ->). reflexivity. }
  rewrite getResponse_ok in Hrun by done. cbn [bind] in Hrun.
  injection Hrun as <-. by right.
Qed.

(** X19. On a cache miss the current revision answers with one of five
    statuses: 200, 301, 400, 404, or the 500 of the listener. No status
    of the remote end is passed on. *)
Theorem statuses_of_current (env : Env) (request : Request) :
  cache env !! href request = None ->
  status (response (Current.listener env request)) ∈ [200; 301; 400; 404; 500].
Proof.
  intros Hmiss. unfold Current.listener.
  destruct (Current.handleRequest env request) as [o|e] eqn:Hrun.
  - cbn [respondWith].
    destruct (current_outcome env request o Hmiss Hrun) as [[H _] | [-> _]]; [|among].
    rewrite !elem_of_cons, elem_of_nil in H. rewrite !elem_of_cons. tauto.
  - cbn [respondWith reply response status]. among.
Qed.

Lemma statuses_of_current_witness :
  status (response (Current.listener (Examples.env Examples.rate_limited)
                      Examples.latest_plugin))
  ∈ [200; 301; 400; 404; 500].
Proof. by apply statuses_of_current. Defined.

(** Follows a run of a handler that ended normally down to the reply. *)
Ltac walk H :=
  repeat first
    [ discriminate H
    | match type of H with
      | replying _ = Normal _ =>
          apply replying_reply in H as (? & _ & ->); left; reflexivity
      | (if ?b then _ else _) = Normal _ => destruct b
      | bind ?c _ = Normal _ => destruct c eqn:?; cbn [bind] in H
      end ].

(** The last step of a successful run: the 200 and its cache write. *)
Ltac written H :=
  injection H as <-; right; split; [|reflexivity];
  match goal with
  | E : getResponse _ 200 = Normal _ |- _ => exact (getResponse_status _ _ _ E)
  end.

Lemma old_outcome env request data o :
  PathRev.resolve env request data = Normal o ->
  waitUntil o = []
  \/ (status (response o) = 200 /\ waitUntil o = [(href request, response o)]).
Proof.
  intros Hrun. unfold PathRev.resolve in Hrun. walk Hrun. written Hrun.
Qed.

Lemma query_outcome env request data o :
  QueryRev.resolve env request data = Normal o ->
  waitUntil o = []
  \/ (status (response o) = 200 /\ waitUntil o = [(href request, response o)]).
Proof.
  intros Hrun. unfold QueryRev.resolve in Hrun. walk Hrun. written Hrun.
Qed.

(** X20. In the three revisions the only response handed to the cache is
    a 200 built on a cache miss, under the URL of the request; errors,
    redirects, the 500 of the listener and responses that come from the
    cache are not written. *)
Theorem only_success_is_cached (env : Env) (request : Request) :
  (waitUntil (Current.listener env request) = []
   \/ (cache env !! href request = None
       /\ status (response (Current.listener env request)) = 200
       /\ waitUntil (Current.listener env request)
          = [(href request, response (Current.listener env request))]))
  /\ (waitUntil (PathRev.listener env request) = []
     \/ (cache env !! href request = None
         /\ status (response (PathRev.listener env request)) = 200
         /\ waitUntil (PathRev.listener env request)
            = [(href request, response (PathRev.listener env request))]))
  /\ (waitUntil (QueryRev.listener env request) = []
     \/ (cache env !! href request = None
         /\ status (response (QueryRev.listener env request)) = 200
         /\ waitUntil (QueryRev.listener env request)
            = [(href request, response (QueryRev.listener env request))])).
Proof.
  split; [|split].
  - unfold Current.listener.
    destruct (Current.handleRequest env request) as [o|e] eqn:Hrun; [|by left].
    cbn [respondWith].
    destruct (cache env !! href request) as [cached|] eqn:Hc.
    { unfold Current.handleRequest in Hrun. rewrite Hc in Hrun.
      injection Hrun as <-. by left. }
    destruct (current_outcome env request o Hc Hrun) as [[_ H] | [H1 H2]]; eauto.
  - unfold PathRev.listener.
    destruct (PathRev.handleRequest env request) as [o|e] eqn:Hrun; [|by left].
    cbn [respondWith]. unfold PathRev.handleRequest in Hrun.
    destruct (cache env !! href request) as [cached|] eqn:Hc.
    { injection Hrun as <-. by left. }
    assert (waitUntil o = []
            \/ (status (response o) = 200
                /\ waitUntil o = [(href request, response o)])) as [H | [H1 H2]];
      [|eauto..].
    cbv zeta in Hrun. walk Hrun. by eapply old_outcome.
  - unfold QueryRev.listener.
    destruct (QueryRev.handleRequest env request) as [o|e] eqn:Hrun; [|by left].
    cbn [respondWith]. unfold QueryRev.handleRequest in Hrun.
    destruct (cache env !! href request) as [cached|] eqn:Hc.
    { injection Hrun as <-. by left. }
    assert (waitUntil o = []
            \/ (status (response o) = 200
                /\ waitUntil o = [(href request, response o)])) as [H | [H1 H2]];
      [|eauto..].
    walk Hrun. by eapply query_outcome.
Qed.

(** X21. Once the cache write of a 200 has run, the same request is
    answered with that very response whatever the remote end does; an
    outcome with another status leaves the cache as it was, so the request
    is worked out again. *)
Theorem cached_answer_is_replayed (env : Env) (request : Request) (o : Outcome) :
  cache env !! href request = None ->
  Current.handleRequest env request = Normal o ->
  (status (response o) = 200 ->
     forall f p, Current.handleRequest (mkEnv f (cache (settle o env)) p) request
                 = Normal (reply (response o)))
  /\ (status (response o) <> 200 -> cache (settle o env) = cache env).
Proof.
  intros Hmiss Hrun.
  destruct (current_outcome env request o Hmiss Hrun) as [[Hs Hw] | [Hs Hw]].
  - split.
    + intros H200. rewrite H200 in Hs.
      rewrite !elem_of_cons, elem_of_nil in Hs. lia.
    + intros _. unfold settle. by rewrite Hw.
  - split; [|done]. intros _ f p. unfold settle. rewrite Hw.
    unfold Current.handleRequest. cbn [cache foldl fst snd].
    by rewrite lookup_insert_eq.
Qed.

Lemma cached_answer_is_replayed_witness :
  Current.handleRequest
    (mkEnv (Examples.remote Examples.rate_limited)
       (cache (settle
                 (Current.listener
                    (Examples.env (Examples.releases [Examples.with_asset]))
                    Examples.latest_plugin)
                 (Examples.env (Examples.releases [Examples.with_asset]))))
       Examples.parser)
    Examples.latest_plugin
  = Normal (reply (response
                     (Current.listener
                        (Examples.env (Examples.releases [Examples.with_asset]))
                        Examples.latest_plugin))).
Proof.
  destruct (cached_answer_is_replayed
              (Examples.env (Examples.releases [Examples.with_asset]))
              Examples.latest_plugin
              (Current.listener (Examples.env (Examples.releases [Examples.with_asset]))
                 Examples.latest_plugin) eq_refl eq_refl) as [H _].
  exact (H eq_refl (Examples.remote Examples.rate_limited) Examples.parser).
Defined.

End OutcomeFacts.

(** * The resolver of the older revisions, and the query-based defaults *)

Module OlderFacts.
Import Js Http JsFacts Replies PathFacts ResolverFacts QueryFacts.

Section PathResolver.
Variable env : Env.
Variable request : Request.
Variable listing : Upstream.

Local Abbreviation data := (PathRev.getDataFromRequest request).

Hypothesis miss : cache env !! href request = None.
Hypothesis typed :
  is_str (PathRev.type data) "theme" || is_str (PathRev.type data) "plugin" = true.
Hypothesis vendor_given : truthy (PathRev.vendor data) = true.
Hypothesis package_given : truthy (PathRev.package data) = true.
Hypothesis answered :
  fetch env (api_releases (PathRev.vendor data) (PathRev.package data)) = Normal listing.

Lemma old_handleRequest_checked :
  PathRev.handleRequest env request = PathRev.resolve env request data.
Proof.
  unfold PathRev.handleRequest. rewrite miss. cbv zeta.
  rewrite vendor_given, package_given. cbn [negb].
  assert (negb (is_str (PathRev.type data) "theme")
          && negb (is_str (PathRev.type data) "plugin") = false) as ->; [|done].
  apply orb_true_iff in typed as [-> | ->]; [done|]. by rewrite andb_false_r.
Qed.


(** X23. In the path-based revision an answer of the release list with
    another status than 200 is passed on: the response has that status
    and the answer's document for body, with the status text [OK] unless
    the status is 400 or 404. The statuses are those a response can be
    built with: 200 to 599, apart from the ones that admit no body. *)
Theorem old_upstream_error_is_proxied (doc : value) :
  up_json listing = Some doc -> doc <> VUndefined ->
  up_status listing <> 200 ->
  200 <= up_status listing <= 599 -> null_body_status (up_status listing) = false ->
  PathRev.listener env request
  = reply (mkResponse (up_status listing) (getStatusText (up_status listing))
             [("Content-Type", "application/json")] (BJson (stringify doc)))
  /\ (up_status listing <> 400 -> up_status listing <> 404 ->
      statusText (response (PathRev.listener env request)) = "OK").
Proof.
  intros Hjson Hdoc Hstatus Hrange Hnull.
  assert (PathRev.listener env request
          = reply (mkResponse (up_status listing) (getStatusText (up_status listing))
                     [("Content-Type", "application/json")] (BJson (stringify doc)))) as E.
  { unfold PathRev.listener. rewrite old_handleRequest_checked.
    unfold PathRev.resolve, json. rewrite answered. cbn [bind]. rewrite Hjson.
    cbn [bind]. apply Z.eqb_neq in Hstatus. rewrite Hstatus. cbn [negb].
    rewrite getResponse_ok by done. by destruct doc. }
  split; [done|]. intros H400 H404. rewrite E. cbn [reply response statusText].
  unfold getStatusText.
  destruct (up_status listing) as [|p|p]; try done.
  repeat (destruct p as [p|p|]; try done).
Qed.

End PathResolver.


Lemma old_upstream_error_is_proxied_witness :
  status (response (PathRev.listener (Examples.env Examples.rate_limited)
                      Examples.latest_plugin)) = 403
  /\ statusText (response (PathRev.listener (Examples.env Examples.rate_limited)
                             Examples.latest_plugin)) = "OK".
Proof.
  destruct (old_upstream_error_is_proxied
              (Examples.env Examples.rate_limited) Examples.latest_plugin
              Examples.rate_limited eq_refl eq_refl eq_refl eq_refl eq_refl
              (VObj [ ("message", VStr "API rate limit exceeded") ])
              eq_refl ltac:(done) ltac:(done) ltac:(done) eq_refl) as [E H].
  split; [by rewrite E | by apply H].
Defined.

(** X26. When the release list is answered with 200 and holds a release
    with assets, [getLatestRelease] returns the first such release in the
    order of the list, and the loop of the older revisions picks the same
    one. *)
Theorem first_usable_release_is_latest (env : Env) (data : Current.Data)
    (listing : Upstream) (before after : list value) (release : value) :
  fetch env (api_releases (Current.vendor data) (Current.package data)) = Normal listing ->
  up_status listing = 200 ->
  up_json listing = Some (VArr (before ++ release :: after)) ->
  Forall unusable before -> usable release ->
  Current.getLatestRelease env data = Normal release
  /\ QueryRev.scan (before ++ release :: after) = Normal release.
Proof.
  intros Hfetch Hok Hjson Hbefore Hrel. split.
  - by eapply getLatestRelease_first_usable.
  - by apply old_scan_first.
Qed.

Lemma first_usable_release_is_latest_witness :
  Current.getLatestRelease
    (Examples.env (Examples.releases [Examples.without_asset; Examples.with_asset]))
    (Current.getDataFromRequest Examples.latest_plugin)
  = Normal Examples.with_asset.
Proof.
  apply (first_usable_release_is_latest
           (Examples.env (Examples.releases [Examples.without_asset; Examples.with_asset]))
           (Current.getDataFromRequest Examples.latest_plugin)
           (Examples.releases [Examples.without_asset; Examples.with_asset])
           [Examples.without_asset] [] Examples.with_asset);
    try reflexivity.
  - by repeat constructor.
  - by exists (VObj Examples.zip), [].
Defined.

(** *** The query-based revision without a basename *)

Lemma second_piece (l1 l2 : list string) :
  l1 <> [] -> l2 <> [] -> exists w, (l1 ++ l2) !! 1%nat = Some w.
Proof.
  intros H1 H2. destruct l1 as [|a [|b l1]]; [done| |by eexists].
  destruct l2; [done|]. by eexists.
Qed.

Lemma query_default_parsed request :
  truthy (get "basename" request) = false ->
  exists data,
    QueryRev.getDataFromRequest request = Normal data
    /\ QueryRev.vendor data = get "vendor" request
    /\ QueryRev.package data = get "package" request
    /\ QueryRev.basename data
       = toString (get "package" request) +:+ "/"
         +:+ toString (get "package" request) +:+ ".php".
Proof.
  intros Hb. unfold QueryRev.getDataFromRequest.
  rewrite ParserFacts.or_else_falsy by done. cbn [toString].
  set (p := toString (get "package" request)).
  change (p +:+ "/" +:+ p +:+ ".php") with (p +:+ String "/" (p +:+ ".php")).
  rewrite split_app.
  destruct (second_piece (split "/" p) (split "/" (p +:+ ".php")))
    as [w ->]; [apply split_nonempty..|].
  cbn [fmap option_fmap option_map default QueryRev.extension bind].
  eexists. split; [reflexivity|]. done.
Qed.

(** X24. Without a [basename] parameter (or with an empty one) the
    query-based parser never throws; for a package name without a slash
    the basename is the package name twice, with [.php], and the request
    is for a plugin. *)
Theorem query_default_basename (request : Request) (P : string) :
  truthy (get "basename" request) = false ->
  (exists data, QueryRev.getDataFromRequest request = Normal data)
  /\ (get "package" request = VStr P -> mem "/" P = false ->
      exists data,
        QueryRev.getDataFromRequest request = Normal data
        /\ QueryRev.basename data = P +:+ "/" +:+ P +:+ ".php"
        /\ QueryRev.slug data = VStr P
        /\ QueryRev.file data = VStr (P +:+ ".php")
        /\ QueryRev.type data = "plugin"
        /\ QueryRev.isPlugin data = true /\ QueryRev.isTheme data = false).
Proof.
  intros Hb. split.
  { destruct (query_default_parsed request Hb) as (data & H & _). eauto. }
  intros HP Hslash. unfold QueryRev.getDataFromRequest.
  rewrite ParserFacts.or_else_falsy, HP by done. cbn [toString].
  change (P +:+ "/" +:+ P +:+ ".php") with (P +:+ String "/" (P +:+ ".php")).
  rewrite split_one; [|done|by rewrite mem_app, Hslash].
  change (default VUndefined (VStr <$> [P; P +:+ ".php"] !! 1%nat))
    with (VStr (P +:+ String "." "php")).
  rewrite extension_last by done. cbn [bind].
  eexists. split; [reflexivity|]. done.
Qed.

Lemma query_default_basename_witness :
  exists data,
    QueryRev.getDataFromRequest Examples.plugin_query = Normal data
    /\ QueryRev.basename data = "widget/widget.php"
    /\ QueryRev.type data = "plugin".
Proof.
  destruct (query_default_basename Examples.plugin_query "widget" eq_refl) as [_ H].
  destruct (H eq_refl eq_refl) as (data & Hd & Hb & _ & _ & Ht & _).
  exists data. by repeat split.
Defined.

(** X25. On a cache miss, a query-based request without a [basename]
    gets the 400 that names the vendor when [vendor] is missing or empty,
    and the 400 that names the package when only [package] is. *)
Theorem query_missing_parameter_is_400 (env : Env) (request : Request) :
  cache env !! href request = None ->
  truthy (get "basename" request) = false ->
  (truthy (get "vendor" request) = false ->
     QueryRev.listener env request = reply (bad_request "Missing URL param: vendor"))
  /\ (truthy (get "vendor" request) = true -> truthy (get "package" request) = false ->
      QueryRev.listener env request = reply (bad_request "Missing URL param: package")).
Proof.
  intros Hmiss Hb.
  destruct (query_default_parsed request Hb) as (data & Hd & Hv & Hp & _).
  unfold QueryRev.listener, QueryRev.handleRequest. rewrite Hmiss, Hd. cbn [bind].
  rewrite Hv, Hp. split.
  - by intros ->.
  - by intros -> ->.
Qed.

Lemma query_missing_parameter_is_400_witness :
  QueryRev.listener (Examples.env Examples.not_found) Examples.empty_basename
  = reply (bad_request "Missing URL param: vendor").
Proof.
  by apply (query_missing_parameter_is_400 (Examples.env Examples.not_found)
              Examples.empty_basename).
Defined.

End OlderFacts.
